(** * dbus-consumption-calculator: a shallow embedding and its properties

    The program (src/dbus-consumption-calculator.py) reads the grid meter's
    and the PV inverter's power from the bus every two seconds and publishes
    the household consumption derived from them.

    Conventions of the embedding.
    - Python values that travel over the bus are [Value]s: [None], an
      [int] (unbounded, so [Z]), a [float] (IEEE 754 binary64 with
      round-to-nearest-even, so Rocq's primitive [float], with its
      infinities, signed zeros and NaN) or a [str].  An [int] that meets a
      [float] is converted first, and raises [OverflowError] when it is too
      large.
    - Exceptions are the instances of Python's [Exception]; the
      system-exiting signals that derive only from [BaseException]
      ([KeyboardInterrupt], [SystemExit] raised from outside) are not faults
      of a tick and have no constructor.
    - Code that mutates and may raise runs in the monad [M]: the state is
      threaded through and SURVIVES an exception, as Python's heap does. *)

From Stdlib Require Import ZArith String List Lia Floats.
From stdpp Require Import gmap strings pretty.

Local Open Scope string_scope.
Local Open Scope Z_scope.

(** ** Values and exceptions *)

Inductive Value : Type :=
  | VNone
  | VInt (n : Z)
  | VFloat (f : float)
  | VStr (s : string).

Inductive exn : Type :=
  | TypeError
  | OverflowError
  | DBusException (name : string)
  | OtherException (name : string).

Inductive Exc (A : Type) : Type :=
  | Ok (a : A)
  | Raise (e : exn).
Arguments Ok {A} a.
Arguments Raise {A} e.

Definition Exc_bind {A B} (k : A → Exc B) (m : Exc A) : Exc B :=
  match m with
  | Ok a => k a
  | Raise e => Raise e
  end.

#[global] Instance Exc_mret : MRet Exc := @Ok.
#[global] Instance Exc_mbind : MBind Exc := @Exc_bind.

(** ** Python's operators on the values [_update] meets

    [grid_power < 0], [abs(x)], [a + b], [a - b] and [max(0, x)].  On [int]
    they are exact and on [float] they are the IEEE operations.  In [a + b]
    and [a - b] an [int] operand beside a [float] one is converted with
    [float(n)].  [None] and [str] operands raise [TypeError], except that
    [+] concatenates two strings. *)

(** [float(n)]: the nearest double, ties to even; [OverflowError] when that
    would be an infinity. *)
Definition float_of_int (n : Z) : Exc float :=
  match binary_normalize prec emax n 0 false with
  | S754_infinity _ => Raise OverflowError
  | sf => Ok (SF2Prim sf)
  end.

Definition py_lt0 (v : Value) : Exc bool :=
  match v with
  | VInt n => Ok (n <? 0)
  | VFloat f => Ok (f <? 0)%float
  | _ => Raise TypeError
  end.

Definition py_abs (v : Value) : Exc Value :=
  match v with
  | VInt n => Ok (VInt (Z.abs n))
  | VFloat f => Ok (VFloat (abs f))
  | _ => Raise TypeError
  end.

Definition py_add (a b : Value) : Exc Value :=
  match a, b with
  | VInt x, VInt y => Ok (VInt (x + y))
  | VInt x, VFloat g => f ← float_of_int x; Ok (VFloat (f + g)%float)
  | VFloat f, VInt y => g ← float_of_int y; Ok (VFloat (f + g)%float)
  | VFloat f, VFloat g => Ok (VFloat (f + g)%float)
  | VStr x, VStr y => Ok (VStr (String.append x y))
  | _, _ => Raise TypeError
  end.

Definition py_sub (a b : Value) : Exc Value :=
  match a, b with
  | VInt x, VInt y => Ok (VInt (x - y))
  | VInt x, VFloat g => f ← float_of_int x; Ok (VFloat (f - g)%float)
  | VFloat f, VInt y => g ← float_of_int y; Ok (VFloat (f - g)%float)
  | VFloat f, VFloat g => Ok (VFloat (f - g)%float)
  | _, _ => Raise TypeError
  end.

(** [max(0, v)]: Python keeps the first argument, the [int] 0, unless
    [v > 0]. *)
Definition py_max0 (v : Value) : Exc Value :=
  match v with
  | VInt n => Ok (VInt (if 0 <? n then n else 0))
  | VFloat f => Ok (if (0 <? f)%float then VFloat f else VInt 0)
  | _ => Raise TypeError
  end.

(** ** The world a tick runs in *)

Inductive LogRecord : Type :=
  | LogInfo (msg : string)
  | LogWaiting (service_name : string)
  | LogFound (service_name : string)
  | LogNotFound (service_name : string) (max_retries : nat)
  | LogDebug (grid_power pv_power consumption_total : Value)
  | LogError (e : exn)
  | LogCritical (e : exn).

(** [_dbusservice]: the published paths with their current values, and
    whether [register()] has been called; [timer] is the period handed to
    [GLib.timeout_add]; [log] is what [logging] has been given, oldest
    first. *)
Record State : Type := mkState {
  _dbusservice : gmap string Value;
  registered : bool;
  timer : option Z;
  log : list LogRecord
}.

Definition set_service (f : gmap string Value → gmap string Value) (st : State) : State :=
  mkState (f (_dbusservice st)) (registered st) (timer st) (log st).

Definition logging (r : LogRecord) (st : State) : State :=
  mkState (_dbusservice st) (registered st) (timer st) (log st ++ [r]).

(** What the bus answers during one tick: the outcome of each of the four
    [get_value()] calls, and for each path whether assigning to it inside
    the [with] block raises. *)
Record Bus : Type := mkBus {
  _grid_power : Exc Value;
  _grid_l1_power : Exc Value;
  _pv_power : Exc Value;
  _pv_l1_power : Exc Value;
  setitem_fault : string → option exn
}.

(** ** The monad of stateful, fallible code

    It shares stdpp's [x ← m; k] notation with [Exc]. *)

Definition M (A : Type) : Type := State → Exc A * State.

Definition M_ret {A} (a : A) : M A := fun st => (Ok a, st).

Definition M_bind {A B} (k : A → M B) (m : M A) : M B := fun st =>
  match m st with
  | (Ok a, st') => k a st'
  | (Raise e, st') => (Raise e, st')
  end.

#[global] Instance M_mret : MRet M := @M_ret.
#[global] Instance M_mbind : MBind M := @M_bind.

(** A computation that only returns or raises leaves the state alone. *)
Definition lift {A} (r : Exc A) : M A := fun st => (r, st).

Definition modify (f : State → State) : M unit := fun st => (Ok tt, f st).

(** ** The transaction of the [with self._dbusservice as s:] block *)

(** A block body stages its assignments; it either yields the staged paths
    or raises. *)
Definition Txn : Type := gmap string Value → Exc (gmap string Value).

(** [s[path] = v] *)
Definition setitem (bus : Bus) (path : string) (v : Value) : Txn := fun staged =>
  match setitem_fault bus path with
  | Some e => Raise e
  | None => Ok (<[path := v]> staged)
  end.

(** Modelled from the spec: the context manager of [VeDbusService] (module
    [vedbus] is imported by the program but is not part of its source).
    The spec describes the store as supporting "atomic multi-field updates"
    and the block as "one atomic transaction": the staged assignments are
    committed together when the block completes, and a block that raises
    commits nothing. *)
Definition with_dbusservice (body : Txn) : M unit := fun st =>
  match body (_dbusservice st) with
  | Ok staged => (Ok tt, set_service (fun _ => staged) st)
  | Raise e => (Raise e, st)
  end.

(** ** ConsumptionCalculator._update *)

(** [if x is None: x = 0] *)
Definition default0 (v : Value) : Value :=
  match v with
  | VNone => VInt 0
  | _ => v
  end.

(** Lines 114-123: the branch on the sign of the grid reading, then the
    clamp; yields [(consumption_total, consumption_l1)]. *)
Definition consumption (grid_power grid_l1_power pv_power pv_l1_power : Value)
  : Exc (Value * Value) :=
  importing ← py_lt0 grid_power;
  '(consumption_total, consumption_l1) ←
    (if importing : bool then
       a ← py_abs grid_power;
       consumption_total ← py_add a pv_power;
       a1 ← py_abs grid_l1_power;
       consumption_l1 ← py_add a1 pv_l1_power;
       mret (consumption_total, consumption_l1)
     else
       consumption_total ← py_sub pv_power grid_power;
       consumption_l1 ← py_sub pv_l1_power grid_l1_power;
       mret (consumption_total, consumption_l1));
  consumption_total ← py_max0 consumption_total;
  consumption_l1 ← py_max0 consumption_l1;
  mret (consumption_total, consumption_l1).

(** Lines 126-130: the four assignments of the [with] block, in order. *)
Definition publish (bus : Bus) (consumption_total consumption_l1 : Value) : Txn :=
  fun s =>
    s ← setitem bus "/Ac/Power" consumption_total s;
    s ← setitem bus "/Ac/L1/Power" consumption_l1 s;
    s ← setitem bus "/Ac/L2/Power" (VInt 0) s;
    setitem bus "/Ac/L3/Power" (VInt 0) s.

(** The body of the [try]. *)
Definition update_try (bus : Bus) : M unit :=
  grid_power ← lift (_grid_power bus);
  grid_l1_power ← lift (_grid_l1_power bus);
  pv_power ← lift (_pv_power bus);
  pv_l1_power ← lift (_pv_l1_power bus);
  let grid_power := default0 grid_power in
  let grid_l1_power := default0 grid_l1_power in
  let pv_power := default0 pv_power in
  let pv_l1_power := default0 pv_l1_power in
  '(consumption_total, consumption_l1) ←
    lift (consumption grid_power grid_l1_power pv_power pv_l1_power);
  with_dbusservice (publish bus consumption_total consumption_l1);;
  modify (logging (LogDebug grid_power pv_power consumption_total)).

(** [try: ... except Exception as e: logging.error(...)] and then
    [return True] on both paths. *)
Definition _update (bus : Bus) (st : State) : bool * State :=
  match update_try bus st with
  | (Ok _, st') => (true, st')
  | (Raise e, st') => (true, logging (LogError e) st')
  end.

(** ** ConsumptionCalculator.__init__ *)

(** [self._dbusservice.add_path(path, value)] *)
Definition add_path (path : string) (v : Value) : State → State :=
  set_service (insert path v).

Definition register (st : State) : State :=
  mkState (_dbusservice st) true (timer st) (log st).

(** [GLib.timeout_add(update_interval_ms, self._update)] *)
Definition timeout_add (update_interval_ms : Z) (st : State) : State :=
  mkState (_dbusservice st) (registered st) (Some update_interval_ms) (log st).

Section Init.

(** [__file__] and [platform.python_version()] are fixed by the
    installation. *)
Variable __file__ : string.
Variable python_version : string.

(** The [gettextcallback] of the four power paths only formats the text
    shown next to a value and is left out. *)
Definition __init__ (grid_service pv_service : string) (update_interval_ms : Z)
    (log0 : list LogRecord) : State :=
  let st := mkState ∅ false None log0 in
  let st := add_path "/Mgmt/ProcessName" (VStr __file__) st in
  let st := add_path "/Mgmt/ProcessVersion"
              (VStr (String.append "v1.0 on Python " python_version)) st in
  let st := add_path "/Mgmt/Connection" (VStr "Calculated from Grid + PV") st in
  let st := add_path "/DeviceInstance" (VInt 100) st in
  let st := add_path "/ProductId" (VInt 0) st in
  let st := add_path "/ProductName" (VStr "Consumption Calculator") st in
  let st := add_path "/CustomName" (VStr "AC Loads") st in
  let st := add_path "/FirmwareVersion" (VFloat 1) st in
  let st := add_path "/HardwareVersion" (VInt 0) st in
  let st := add_path "/Connected" (VInt 1) st in
  let st := add_path "/Role" (VStr "acload") st in
  let st := add_path "/Serial" (VStr "CALC001") st in
  let st := add_path "/Ac/Power" (VInt 0) st in
  let st := add_path "/Ac/L1/Power" (VInt 0) st in
  let st := add_path "/Ac/L2/Power" (VInt 0) st in
  let st := add_path "/Ac/L3/Power" (VInt 0) st in
  let st := register st in
  let st := timeout_add update_interval_ms st in
  let st := logging (LogInfo "Consumption calculator initialized") st in
  let st := logging (LogInfo (String.append "  Grid service: " grid_service)) st in
  let st := logging (LogInfo (String.append "  PV service: " pv_service)) st in
  logging (LogInfo (String.append "  Update interval: "
                      (String.append (pretty update_interval_ms) "ms"))) st.

End Init.

(** ** The timer of the main loop

    [GLib.timeout_add] calls [_update] once per period for as long as it
    returns [True]; [ticks] lists what the bus answers at each period. *)
Fixpoint mainloop_run (ticks : list Bus) (st : State) : State :=
  match ticks with
  | [] => st
  | bus :: ticks' =>
      match _update bus st with
      | (true, st') => mainloop_run ticks' st'
      | (false, st') => st'
      end
  end.

(** ** main: waiting for the two services *)

Definition grid_service : string := "com.victronenergy.grid.huawei_meter".
Definition pv_service : string := "com.victronenergy.pvinverter.sun2000".
Definition max_retries : nat := 30.

Inductive Event : Type :=
  | GetObject (service_name : string)
  | Sleep (seconds : Z).

#[global] Instance Event_eq_dec : EqDecision Event.
Proof. solve_decision. Defined.

(** What startup has done so far: bus look-ups and sleeps in order, and
    the log. *)
Record World : Type := mkWorld {
  trace : list Event;
  wlog : list LogRecord
}.

Definition emit (ev : Event) (w : World) : World :=
  mkWorld (trace w ++ [ev]) (wlog w).

Definition wlogging (r : LogRecord) (w : World) : World :=
  mkWorld (trace w) (wlog w ++ [r]).

(** How a piece of [main] ends: control goes on, or [sys.exit(code)]. *)
Inductive Flow : Type :=
  | Next (w : World)
  | SysExit (code : Z) (w : World).

Section Startup.

(** [dbusconn.get_object(service_name, '/')]: [true] when the proxy is
    returned, [false] when [DBusException] is raised.  The answer may
    depend on everything that happened before the call. *)
Variable get_object : list Event → string → bool.

(** The [while retry_count < max_retries] loop of one service. *)
Fixpoint wait_loop (fuel : nat) (service_name : string) (retry_count : nat)
    (w : World) : option Flow :=
  match fuel with
  | O => None
  | S fuel' =>
      if (retry_count <? max_retries)%nat then
        let found := get_object (trace w) service_name in
        let w := emit (GetObject service_name) w in
        if found then
          Some (Next (wlogging (LogFound service_name) w))
        else
          let retry_count := S retry_count in
          if (max_retries <=? retry_count)%nat then
            Some (SysExit 1 (wlogging (LogNotFound service_name max_retries) w))
          else
            wait_loop fuel' service_name retry_count (emit (Sleep 2) w)
      else Some (Next w)
  end.

(** [for service_name in [...]] *)
Fixpoint for_services (fuel : nat) (services : list string) (w : World)
    : option Flow :=
  match services with
  | [] => Some (Next w)
  | service_name :: services' =>
      match wait_loop fuel service_name 0
              (wlogging (LogWaiting service_name) w) with
      | Some (Next w') => for_services fuel services' w'
      | r => r
      end
  end.

Definition wait_for_services (fuel : nat) (w : World) : option Flow :=
  for_services fuel [grid_service; pv_service] w.

End Startup.

(** ** main *)

Inductive Process : Type :=
  | Exited (code : Z) (w : World)
  | Running (w : World) (calculator : State).

(** [ConsumptionCalculator(grid_service, pv_service)] as [main] calls it.
    The constructor calls into [vedbus], [dbus] and [GLib] to create and
    register the service, connect to the bus, import the four items and
    start the timer; [fault] is the exception that one of these calls
    raises, if any.  They all come before the constructor's own log lines,
    so a constructor that raises has logged nothing. *)
Definition ConsumptionCalculator (fault : option exn)
    (__file__ python_version grid_service pv_service : string)
    (log0 : list LogRecord) : Exc State :=
  match fault with
  | Some e => Raise e
  | None => Ok (__init__ __file__ python_version grid_service pv_service 2000 log0)
  end.

(** [construct_fault] is what the bus does to the constructor, and [ticks]
    what it answers at each period while the main loop runs.  The [try] of
    lines 177-189 catches an exception of the constructor, logs it as
    critical and exits with status 1. *)
Definition main (__file__ python_version : string)
    (get_object : list Event → string → bool) (construct_fault : option exn)
    (fuel : nat) (ticks : list Bus) : option Process :=
  let w := mkWorld [] [] in
  let w := wlogging (LogInfo "============================================================") w in
  let w := wlogging (LogInfo "Starting Consumption Calculator Service") w in
  let w := wlogging (LogInfo "============================================================") w in
  match wait_for_services get_object fuel w with
  | None => None
  | Some (SysExit code w) => Some (Exited code w)
  | Some (Next w) =>
      match ConsumptionCalculator construct_fault __file__ python_version
              grid_service pv_service (wlog w) with
      | Raise e => Some (Exited 1 (wlogging (LogCritical e) w))
      | Ok calculator =>
          let calculator :=
            logging (LogInfo "Consumption calculator running") calculator in
          let calculator :=
            logging (LogInfo "Calculation: Consumption = Grid (import) + PV Production")
              calculator in
          let calculator :=
            logging (LogInfo "------------------------------------------------------------")
              calculator in
          Some (Running w (mainloop_run ticks calculator))
      end
  end.

(** * Vocabulary of the properties *)

Definition output_paths : list string :=
  ["/Ac/Power"; "/Ac/L1/Power"; "/Ac/L2/Power"; "/Ac/L3/Power"].

(** The integer a reading stands for once unavailable readings are
    defaulted; [None] when the read raised or gave something that is not an
    [int]. *)
Definition reading_of (r : Exc Value) : option Z :=
  match r with
  | Ok v => match default0 v with VInt n => Some n | _ => None end
  | Raise _ => None
  end.

(** The value a reading stands for once unavailable readings are
    defaulted; [None] when the read raised. *)
Definition defaulted (r : Exc Value) : option Value :=
  match r with
  | Ok v => Some (default0 v)
  | Raise _ => None
  end.

(** The store takes the four assignments of a tick. *)
Definition accepts (bus : Bus) : Prop :=
  ∀ path, path ∈ output_paths → setitem_fault bus path = None.

(** Every read returns, the arithmetic of lines 114-123 raises nothing and
    the store takes the assignments: by [update_try_cases] below, exactly
    the ticks that go through. *)
Definition sound (bus : Bus) : Prop :=
  ∃ g g1 p p1 r,
    defaulted (_grid_power bus) = Some g ∧
    defaulted (_grid_l1_power bus) = Some g1 ∧
    defaulted (_pv_power bus) = Some p ∧
    defaulted (_pv_l1_power bus) = Some p1 ∧
    consumption g g1 p p1 = Ok r ∧
    accepts bus.

(** What a reader of [path] sees after the tick. *)
Definition published (bus : Bus) (st : State) (path : string) : option Value :=
  _dbusservice (snd (_update bus st)) !! path.

(** Python's [v >= 0] and [v > 0] on numbers. *)
Definition py_ge0 (v : Value) : bool :=
  match v with
  | VInt n => 0 <=? n
  | VFloat f => (0 <=? f)%float
  | _ => false
  end.

Definition py_gt0 (v : Value) : bool :=
  match v with
  | VInt n => 0 <? n
  | VFloat f => (0 <? f)%float
  | _ => false
  end.

Definition is_int (v : Value) : bool :=
  match v with VInt _ => true | _ => false end.

Definition is_float (v : Value) : bool :=
  match v with VFloat _ => true | _ => false end.

(** A bus whose four reads return the given values and whose store takes
    every assignment. *)
Definition steady (grid_power grid_l1_power pv_power pv_l1_power : Value) : Bus :=
  mkBus (Ok grid_power) (Ok grid_l1_power) (Ok pv_power) (Ok pv_l1_power)
        (fun _ => None).

Definition example_state : State :=
  __init__ "/data/dbus-consumption-calculator.py" "3.8.13"
    grid_service pv_service 2000 [].

(** A night reading: 3 W drawn from the grid while the inverter itself
    draws 10 W. *)
Definition night_bus : Bus := steady (VInt (-3)) (VInt (-3)) (VInt (-10)) (VInt (-10)).

(** Scenario 1 of the spec, with the grid's phase reading unavailable. *)
Definition import_bus : Bus := steady (VInt (-2300)) VNone (VInt 400) (VInt 380).

(** Float readings, importing and exporting. *)
Definition float_import_bus : Bus :=
  steady (VFloat (-2300.5)) (VFloat (-2300.5)) (VFloat 400.25) (VFloat 400.25).

Definition float_export_bus : Bus :=
  steady (VFloat 1715.5) (VFloat 1715.5) (VFloat 2417.75) (VFloat 2417.75).

(** A float grid reading beside an [int] PV reading that [float] rounds. *)
Definition rounding_bus : Bus :=
  steady (VFloat 1e16) (VInt 0) (VInt (10 ^ 16 + 1)) (VInt 0).

(** An [int] too large for a float beside a float, and a string. *)
Definition overflow_bus : Bus :=
  steady (VInt (- 2 ^ 1024)) (VStr "n/a") (VFloat 1) (VInt 0).

(** The paths after a tick that went through. *)
Definition commit (ct c1 : Value) (m : gmap string Value) : gmap string Value :=
  <["/Ac/L3/Power" := VInt 0]> (<["/Ac/L2/Power" := VInt 0]>
    (<["/Ac/L1/Power" := c1]> (<["/Ac/Power" := ct]> m))).

(** Replace an unavailable reading by the reading 0, when [flag] says so. *)
Definition zero_if_missing (flag : bool) (r : Exc Value) : Exc Value :=
  match flag, r with
  | true, Ok VNone => Ok (VInt 0)
  | _, _ => r
  end.

Definition zero_missing (f f1 f2 f3 : bool) (bus : Bus) : Bus :=
  mkBus (zero_if_missing f (_grid_power bus))
        (zero_if_missing f1 (_grid_l1_power bus))
        (zero_if_missing f2 (_pv_power bus))
        (zero_if_missing f3 (_pv_l1_power bus))
        (setitem_fault bus).

Definition of_reading (o : option Z) : Value :=
  match o with
  | Some n => VInt n
  | None => VNone
  end.

(** A published number that is not negative: Python's [v >= 0]. *)
Definition nonneg (v : Value) : Prop := py_ge0 v = true.

Definition nonneg_at (m : gmap string Value) (path : string) : Prop :=
  ∃ v, m !! path = Some v ∧ nonneg v.

Definition outputs_nonneg (m : gmap string Value) : Prop :=
  Forall (nonneg_at m) output_paths.

Definition unused_phases_zero (m : gmap string Value) : Prop :=
  m !! "/Ac/L2/Power" = Some (VInt 0) ∧ m !! "/Ac/L3/Power" = Some (VInt 0).

(** A fault of each kind: the PV read raises; the grid reading is a
    string; the store refuses the third assignment of the block. *)
Definition read_faulting : Bus :=
  mkBus (Ok (VInt (-2300))) (Ok (VInt (-2300)))
        (Raise (DBusException "org.freedesktop.DBus.Error.NoReply")) (Ok (VInt 400))
        (fun _ => None).

Definition compute_faulting : Bus := steady (VStr "n/a") (VInt 0) (VInt 400) (VInt 400).

Definition publish_faulting : Bus :=
  mkBus (Ok (VInt (-2300))) (Ok (VInt (-2300))) (Ok (VInt 400)) (Ok (VInt 400))
        (fun path => if decide (path = "/Ac/L2/Power")
                     then Some (OtherException "ValueError") else None).

(** [k] failed look-ups of a service, each followed by its sleep. *)
Fixpoint retries (k : nat) (service_name : string) : list Event :=
  match k with
  | O => []
  | S k' => GetObject service_name :: Sleep 2 :: retries k' service_name
  end.

(** All the look-ups of one service when the last of them is the
    [k+1]-th. *)
Definition probes (k : nat) (service_name : string) : list Event :=
  retries k service_name ++ [GetObject service_name].

(** None of the [max_retries] look-ups that the loop can make after [tr]
    finds the service. *)
Definition never_found (get_object : list Event → string → bool)
    (tr : list Event) (s : string) : Prop :=
  ∀ j, (j < max_retries)%nat → get_object (tr ++ retries j s)%list s = false.

(** The look-up number [k] (from 0) is the first that finds it. *)
Definition found_at (get_object : list Event → string → bool)
    (tr : list Event) (s : string) (k : nat) : Prop :=
  (k < max_retries)%nat ∧
  get_object (tr ++ retries k s)%list s = true ∧
  ∀ j, (j < k)%nat → get_object (tr ++ retries j s)%list s = false.

Definition header : list LogRecord :=
  [LogInfo "============================================================";
   LogInfo "Starting Consumption Calculator Service";
   LogInfo "============================================================"].

(** ** Further vocabulary *)

(** Seconds slept and look-ups made along a startup trace. *)
Fixpoint slept (tr : list Event) : Z :=
  match tr with
  | [] => 0
  | Sleep seconds :: tr' => seconds + slept tr'
  | GetObject _ :: tr' => slept tr'
  end.

Fixpoint lookups (tr : list Event) : nat :=
  match tr with
  | [] => 0
  | GetObject _ :: tr' => S (lookups tr')
  | Sleep _ :: tr' => lookups tr'
  end.

(** The paths [__init__] registers. *)
Definition registered_paths : list string :=
  ["/Mgmt/ProcessName"; "/Mgmt/ProcessVersion"; "/Mgmt/Connection";
   "/DeviceInstance"; "/ProductId"; "/ProductName"; "/CustomName";
   "/FirmwareVersion"; "/HardwareVersion"; "/Connected"; "/Role"; "/Serial";
   "/Ac/Power"; "/Ac/L1/Power"; "/Ac/L2/Power"; "/Ac/L3/Power"].

(** A three-phase site: the total imports while phase 1 exports. *)
Definition mixed_bus : Bus := steady (VInt (-500)) (VInt 200) (VInt 900) (VInt 300).

(** Scenario 2 of the spec on a single-phase site. *)
Definition export_bus : Bus := steady (VInt 1715) (VInt 1715) (VInt 2417) (VInt 2417).

(** More import and more production than [import_bus]. *)
Definition noon_bus : Bus := steady (VInt (-2400)) (VInt (-2400)) (VInt 900) (VInt 900).

(** A meter and an inverter without per-phase values. *)
Definition no_phase_bus : Bus := steady (VInt (-2300)) VNone (VInt 400) VNone.

(** The PV read raises after the grid read gave a string. *)
Definition string_then_raise : Bus :=
  mkBus (Ok (VStr "n/a")) (Ok (VInt 0))
        (Raise (DBusException "org.freedesktop.DBus.Error.ServiceUnknown"))
        (Ok (VInt 400)) (fun _ => None).

(** The grid service answers the third look-up, the PV service the
    second one after that. *)
Definition slow_start (tr : list Event) (service_name : string) : bool :=
  (if decide (service_name = grid_service) then 4 <=? length tr
   else 7 <=? length tr)%nat.

(** The world a run of [main] ended its startup in. *)
Definition outcome_world (outcome : Process) : World :=
  match outcome with
  | Exited _ w => w
  | Running w _ => w
  end.

(** The calculator as [main] hands it to the main loop. *)
Definition started (__file__ python_version : string) (log0 : list LogRecord) : State :=
  logging (LogInfo "------------------------------------------------------------")
    (logging (LogInfo "Calculation: Consumption = Grid (import) + PV Production")
       (logging (LogInfo "Consumption calculator running")
          (__init__ __file__ python_version grid_service pv_service 2000 log0))).

(** Neither service has a value yet. *)
Definition silent_bus : Bus := steady VNone VNone VNone VNone.

(** * Properties *)

(** ** Floats against zero *)

Lemma float_gt0_ge0 f : (0 <? f)%float = true → (0 <=? f)%float = true.
Proof.
  rewrite ltb_spec, leb_spec. unfold SFltb, SFleb.
  change (Prim2SF 0) with (S754_zero false).
  by destruct (Prim2SF f) as [s|[]| |[] m e].
Qed.

Lemma float_ge0_not_lt0 f : (0 <=? f)%float = true → (f <? 0)%float = false.
Proof.
  rewrite ltb_spec, leb_spec. unfold SFltb, SFleb.
  change (Prim2SF 0) with (S754_zero false).
  by destruct (Prim2SF f) as [s|[]| |[] m e].
Qed.

Lemma py_ge0_not_lt0 v : py_ge0 v = true → py_lt0 v = Ok false.
Proof.
  destruct v as [|n|f|s]; cbn [py_ge0 py_lt0]; try discriminate.
  - intros H. f_equal. lia.
  - intros H. by rewrite float_ge0_not_lt0.
Qed.

(** ** One tick, step by step *)

Lemma py_max0_max n : py_max0 (VInt n) = Ok (VInt (Z.max 0 n)).
Proof.
  unfold py_max0. destruct (Z.ltb_spec 0 n); do 2 f_equal; lia.
Qed.

(** The clamp yields a number that is not negative, and leaves a positive
    one as it is. *)
Lemma py_max0_nonneg v c : py_max0 v = Ok c → nonneg c.
Proof.
  unfold nonneg. destruct v as [|n|f|s]; cbn [py_max0]; try discriminate.
  - intros [= <-]. cbn [py_ge0]. destruct (Z.ltb_spec 0 n); lia.
  - destruct (0 <? f)%float eqn:E; intros [= <-]; cbn [py_ge0]; [|done].
    by apply float_gt0_ge0.
Qed.

Lemma py_max0_gt0 v c : py_max0 v = Ok c → py_gt0 v = true → c = v.
Proof.
  destruct v as [|n|f|s]; cbn [py_max0 py_gt0]; try discriminate.
  - intros [= <-] ->. done.
  - intros [= <-] ->. done.
Qed.

Lemma reading_of_Some r n :
  reading_of r = Some n → ∃ v, r = Ok v ∧ default0 v = VInt n.
Proof.
  destruct r as [v|e]; simpl; [|discriminate].
  destruct (default0 v) eqn:E; try discriminate.
  intros [= ->]. eauto.
Qed.

Lemma reading_of_defaulted r n :
  reading_of r = Some n → defaulted r = Some (VInt n).
Proof. intros (v & -> & Hv)%reading_of_Some. cbn [defaulted]. by rewrite Hv. Qed.

Lemma defaulted_Some r x :
  defaulted r = Some x → ∃ v, r = Ok v ∧ default0 v = x.
Proof. destruct r as [v|e]; cbn [defaulted]; [|discriminate]. intros [= <-]. eauto. Qed.

(** The arithmetic of lines 114-123, result by result. *)
Lemma consumption_Ok a b c d ct c1 :
  consumption a b c d = Ok (ct, c1) ↔
  ∃ importing t l,
    py_lt0 a = Ok importing ∧
    (if importing : bool
     then ∃ x x1, py_abs a = Ok x ∧ py_add x c = Ok t ∧
                  py_abs b = Ok x1 ∧ py_add x1 d = Ok l
     else py_sub c a = Ok t ∧ py_sub d b = Ok l) ∧
    py_max0 t = Ok ct ∧ py_max0 l = Ok c1.
Proof.
  unfold consumption. split.
  - destruct (py_lt0 a) as [[]|]; cbn [mbind Exc_mbind Exc_bind]; [| |discriminate].
    + destruct (py_abs a) as [x|] eqn:Ex; cbn [mbind Exc_mbind Exc_bind]; [|discriminate].
      destruct (py_add x c) as [t|] eqn:Et; cbn [mbind Exc_mbind Exc_bind];
        [|discriminate].
      destruct (py_abs b) as [x1|] eqn:Ex1; cbn [mbind Exc_mbind Exc_bind];
        [|discriminate].
      destruct (py_add x1 d) as [l|] eqn:El;
        cbn [mbind Exc_mbind Exc_bind mret Exc_mret]; [|discriminate].
      destruct (py_max0 t) as [ct'|] eqn:Ect; cbn [mbind Exc_mbind Exc_bind];
        [|discriminate].
      destruct (py_max0 l) as [c1'|] eqn:Ec1;
        cbn [mbind Exc_mbind Exc_bind mret Exc_mret]; [|discriminate].
      intros [= <- <-]. exists true, t, l. split_and!; [done| |done..].
      by exists x, x1.
    + destruct (py_sub c a) as [t|] eqn:Et; cbn [mbind Exc_mbind Exc_bind];
        [|discriminate].
      destruct (py_sub d b) as [l|] eqn:El;
        cbn [mbind Exc_mbind Exc_bind mret Exc_mret]; [|discriminate].
      destruct (py_max0 t) as [ct'|] eqn:Ect; cbn [mbind Exc_mbind Exc_bind];
        [|discriminate].
      destruct (py_max0 l) as [c1'|] eqn:Ec1;
        cbn [mbind Exc_mbind Exc_bind mret Exc_mret]; [|discriminate].
      intros [= <- <-]. by exists false, t, l.
  - intros (importing & t & l & -> & Hbranch & Ht & Hl).
    cbn [mbind Exc_mbind Exc_bind]. destruct importing.
    + destruct Hbranch as (x & x1 & -> & Hx & -> & Hx1).
      cbn [mbind Exc_mbind Exc_bind]. rewrite Hx. cbn [mbind Exc_mbind Exc_bind].
      rewrite Hx1. cbn [mbind Exc_mbind Exc_bind mret Exc_mret].
      rewrite Ht. cbn [mbind Exc_mbind Exc_bind]. by rewrite Hl.
    + destruct Hbranch as [-> ->]. cbn [mbind Exc_mbind Exc_bind mret Exc_mret].
      rewrite Ht. cbn [mbind Exc_mbind Exc_bind]. by rewrite Hl.
Qed.

Lemma consumption_int g g1 p p1 :
  consumption (VInt g) (VInt g1) (VInt p) (VInt p1)
  = Ok (VInt (Z.max 0 (if g <? 0 then Z.abs g + p else p - g)),
        VInt (Z.max 0 (if g <? 0 then Z.abs g1 + p1 else p1 - g1))).
Proof.
  unfold consumption; cbn [py_lt0 mbind Exc_mbind Exc_bind].
  destruct (g <? 0); cbn [py_abs py_add py_sub mbind Exc_mbind Exc_bind mret Exc_mret];
    by rewrite !py_max0_max.
Qed.

Lemma consumption_nonneg a b c d ct c1 :
  consumption a b c d = Ok (ct, c1) → nonneg ct ∧ nonneg c1.
Proof.
  intros (importing & t & l & _ & _ & Ht & Hl)%consumption_Ok.
  split; by eapply py_max0_nonneg.
Qed.

Lemma publish_accepted bus ct c1 m :
  accepts bus → publish bus ct c1 m = Ok (commit ct c1 m).
Proof.
  intros Hacc. unfold publish, setitem.
  rewrite !Hacc by (unfold output_paths; set_solver).
  reflexivity.
Qed.

(** A tick whose reads return, whose arithmetic raises nothing and whose
    assignments are taken. *)
Lemma update_try_goes bus st g g1 p p1 ct c1 :
  defaulted (_grid_power bus) = Some g →
  defaulted (_grid_l1_power bus) = Some g1 →
  defaulted (_pv_power bus) = Some p →
  defaulted (_pv_l1_power bus) = Some p1 →
  consumption g g1 p p1 = Ok (ct, c1) →
  accepts bus →
  update_try bus st
  = (Ok tt, logging (LogDebug g p ct) (set_service (commit ct c1) st)).
Proof.
  intros (v & Hr & <-)%defaulted_Some (v1 & Hr1 & <-)%defaulted_Some
         (w & Hp & <-)%defaulted_Some (w1 & Hp1 & <-)%defaulted_Some Hc Hacc.
  unfold update_try, mbind, M_mbind, M_bind, lift.
  rewrite Hr, Hr1, Hp, Hp1, Hc.
  unfold with_dbusservice, modify.
  by rewrite publish_accepted.
Qed.

Lemma update_try_normal bus st g g1 p p1 :
  reading_of (_grid_power bus) = Some g →
  reading_of (_grid_l1_power bus) = Some g1 →
  reading_of (_pv_power bus) = Some p →
  reading_of (_pv_l1_power bus) = Some p1 →
  accepts bus →
  update_try bus st
  = (Ok tt,
     logging (LogDebug (VInt g) (VInt p)
                (VInt (Z.max 0 (if g <? 0 then Z.abs g + p else p - g))))
       (set_service
          (commit (VInt (Z.max 0 (if g <? 0 then Z.abs g + p else p - g)))
                  (VInt (Z.max 0 (if g <? 0 then Z.abs g1 + p1 else p1 - g1)))) st)).
Proof.
  intros Hg%reading_of_defaulted Hg1%reading_of_defaulted
         Hp%reading_of_defaulted Hp1%reading_of_defaulted Hacc.
  apply (update_try_goes _ _ _ _ _ _ _ _ Hg Hg1 Hp Hp1); [|done].
  apply consumption_int.
Qed.

Lemma publish_Ok_inv bus ct c1 m m' :
  publish bus ct c1 m = Ok m' → accepts bus.
Proof.
  unfold publish, setitem, accepts, output_paths.
  destruct (setitem_fault bus "/Ac/Power") eqn:E0; [discriminate|].
  destruct (setitem_fault bus "/Ac/L1/Power") eqn:E1; [discriminate|].
  destruct (setitem_fault bus "/Ac/L2/Power") eqn:E2; [discriminate|].
  destruct (setitem_fault bus "/Ac/L3/Power") eqn:E3; [discriminate|].
  intros _ path Hin. set_unfold in Hin. by destruct Hin as [->|[->|[->|[->|[]]]]].
Qed.

(** A tick that raises has changed nothing: the reads and the arithmetic
    do not touch the state, and the block that raises commits nothing. *)
Lemma update_try_Raise bus st e st' :
  update_try bus st = (Raise e, st') → st' = st.
Proof.
  unfold update_try, mbind, M_mbind, M_bind, lift, with_dbusservice, modify.
  destruct (_grid_power bus); [|congruence].
  destruct (_grid_l1_power bus); [|congruence].
  destruct (_pv_power bus); [|congruence].
  destruct (_pv_l1_power bus); [|congruence].
  destruct (consumption _ _ _ _) as [[ct c1]|]; [|congruence].
  destruct (publish _ _ _ _); congruence.
Qed.

(** A tick goes through exactly when it is [sound]. *)
Lemma update_try_Ok bus st u st' :
  update_try bus st = (Ok u, st') →
  ∃ g g1 p p1 ct c1,
    defaulted (_grid_power bus) = Some g ∧
    defaulted (_grid_l1_power bus) = Some g1 ∧
    defaulted (_pv_power bus) = Some p ∧
    defaulted (_pv_l1_power bus) = Some p1 ∧
    consumption g g1 p p1 = Ok (ct, c1) ∧
    accepts bus.
Proof.
  unfold update_try, mbind, M_mbind, M_bind, lift, with_dbusservice, modify, defaulted.
  destruct (_grid_power bus) as [v|]; [|congruence].
  destruct (_grid_l1_power bus) as [v1|]; [|congruence].
  destruct (_pv_power bus) as [w|]; [|congruence].
  destruct (_pv_l1_power bus) as [w1|]; [|congruence].
  destruct (consumption _ _ _ _) as [[ct c1]|] eqn:Hc; [|congruence].
  destruct (publish _ _ _ _) eqn:Hp; [|congruence].
  apply publish_Ok_inv in Hp. intros _.
  by exists (default0 v), (default0 v1), (default0 w), (default0 w1), ct, c1.
Qed.

(** Every tick is of one of two kinds. *)
Lemma update_try_cases bus st :
  (∃ e, update_try bus st = (Raise e, st)) ∨
  (∃ g g1 p p1 ct c1,
     defaulted (_grid_power bus) = Some g ∧
     defaulted (_grid_l1_power bus) = Some g1 ∧
     defaulted (_pv_power bus) = Some p ∧
     defaulted (_pv_l1_power bus) = Some p1 ∧
     consumption g g1 p p1 = Ok (ct, c1) ∧
     accepts bus).
Proof.
  destruct (update_try bus st) as [[u|e] st'] eqn:E.
  - right. by eapply update_try_Ok.
  - left. exists e. by pose proof (update_try_Raise _ _ _ _ E) as ->.
Qed.

Lemma sound_goes bus g g1 p p1 :
  sound bus →
  defaulted (_grid_power bus) = Some g →
  defaulted (_grid_l1_power bus) = Some g1 →
  defaulted (_pv_power bus) = Some p →
  defaulted (_pv_l1_power bus) = Some p1 →
  accepts bus ∧ ∃ ct c1, consumption g g1 p p1 = Ok (ct, c1).
Proof.
  intros (g' & g1' & p' & p1' & [ct c1] & Hg' & Hg1' & Hp' & Hp1' & Hc & Hacc)
         Hg Hg1 Hp Hp1.
  rewrite Hg in Hg'. rewrite Hg1 in Hg1'. rewrite Hp in Hp'. rewrite Hp1 in Hp1'.
  injection Hg' as <-. injection Hg1' as <-. injection Hp' as <-. injection Hp1' as <-.
  eauto.
Qed.

Lemma ints_sound bus g g1 p p1 :
  reading_of (_grid_power bus) = Some g →
  reading_of (_grid_l1_power bus) = Some g1 →
  reading_of (_pv_power bus) = Some p →
  reading_of (_pv_l1_power bus) = Some p1 →
  accepts bus → sound bus.
Proof.
  intros Hg%reading_of_defaulted Hg1%reading_of_defaulted
         Hp%reading_of_defaulted Hp1%reading_of_defaulted Hacc.
  eexists _, _, _, _, _. split_and!; [done..|apply consumption_int|done].
Qed.

Lemma steady_accepts g g1 p p1 : accepts (steady g g1 p p1).
Proof. by intros path _. Qed.

Lemma steady_sound g g1 p p1 r :
  consumption (default0 g) (default0 g1) (default0 p) (default0 p1) = Ok r →
  sound (steady g g1 p p1).
Proof.
  intros Hc. eexists _, _, _, _, r.
  split_and!; [reflexivity..|exact Hc|apply steady_accepts].
Qed.

Lemma update_goes bus st g g1 p p1 ct c1 :
  defaulted (_grid_power bus) = Some g →
  defaulted (_grid_l1_power bus) = Some g1 →
  defaulted (_pv_power bus) = Some p →
  defaulted (_pv_l1_power bus) = Some p1 →
  consumption g g1 p p1 = Ok (ct, c1) →
  accepts bus →
  _update bus st
  = (true, logging (LogDebug g p ct) (set_service (commit ct c1) st)).
Proof. intros. unfold _update. by erewrite update_try_goes. Qed.

Lemma update_normal bus st g g1 p p1 :
  reading_of (_grid_power bus) = Some g →
  reading_of (_grid_l1_power bus) = Some g1 →
  reading_of (_pv_power bus) = Some p →
  reading_of (_pv_l1_power bus) = Some p1 →
  accepts bus →
  _update bus st
  = (true,
     logging (LogDebug (VInt g) (VInt p)
                (VInt (Z.max 0 (if g <? 0 then Z.abs g + p else p - g))))
       (set_service
          (commit (VInt (Z.max 0 (if g <? 0 then Z.abs g + p else p - g)))
                  (VInt (Z.max 0 (if g <? 0 then Z.abs g1 + p1 else p1 - g1)))) st)).
Proof.
  intros. unfold _update. by erewrite update_try_normal.
Qed.

Lemma update_Raise bus st e :
  update_try bus st = (Raise e, st) →
  _update bus st = (true, logging (LogError e) st).
Proof. intros H. unfold _update. by rewrite H. Qed.

Lemma commit_lookup_total ct c1 m : commit ct c1 m !! "/Ac/Power" = Some ct.
Proof. unfold commit. by simplify_map_eq. Qed.

Lemma commit_lookup_l1 ct c1 m : commit ct c1 m !! "/Ac/L1/Power" = Some c1.
Proof. unfold commit. by simplify_map_eq. Qed.

Lemma commit_lookup_l2 ct c1 m : commit ct c1 m !! "/Ac/L2/Power" = Some (VInt 0).
Proof. unfold commit. by simplify_map_eq. Qed.

Lemma commit_lookup_l3 ct c1 m : commit ct c1 m !! "/Ac/L3/Power" = Some (VInt 0).
Proof. unfold commit. by simplify_map_eq. Qed.

Lemma commit_lookup_other ct c1 m path :
  path ∉ output_paths → commit ct c1 m !! path = m !! path.
Proof.
  unfold commit, output_paths. intros Hnin.
  rewrite !lookup_insert_ne; [done|set_solver..].
Qed.

(** What a sound tick leaves in the four outputs. *)
Lemma update_service_goes bus st g g1 p p1 ct c1 :
  defaulted (_grid_power bus) = Some g →
  defaulted (_grid_l1_power bus) = Some g1 →
  defaulted (_pv_power bus) = Some p →
  defaulted (_pv_l1_power bus) = Some p1 →
  consumption g g1 p p1 = Ok (ct, c1) →
  accepts bus →
  _dbusservice (snd (_update bus st)) = commit ct c1 (_dbusservice st).
Proof.
  intros Hg Hg1 Hp Hp1 Hc Hacc.
  by rewrite (update_goes _ _ _ _ _ _ _ _ Hg Hg1 Hp Hp1 Hc Hacc).
Qed.

(** ** The consumption formula *)

Ltac steady_is_sound := eapply steady_sound; reflexivity.

Lemma rounding_bus_sound : sound rounding_bus.
Proof.
  apply (steady_sound _ _ _ _ (VInt 0, VInt 0)). vm_compute. reflexivity.
Qed.

(** C1, as amended: when the grid reading (unavailable readings taken as 0)
    is negative and the tick goes through, the published /Ac/Power is
    max(0, |grid_total| + pv_total), in Python's arithmetic: exact on [int],
    IEEE on [float], an [int] beside a [float] converted first.  It is the
    sum itself whenever the sum is greater than 0; with integer readings
    that is so for every pv_total >= 0, and the published value is then
    exactly |grid_total| + pv_total. *)
Theorem import_consumption_total bus st g g1 p p1
    (Hg : defaulted (_grid_power bus) = Some g)
    (Hg1 : defaulted (_grid_l1_power bus) = Some g1)
    (Hp : defaulted (_pv_power bus) = Some p)
    (Hp1 : defaulted (_pv_l1_power bus) = Some p1)
    (Hsound : sound bus)
    (Himport : py_lt0 g = Ok true) :
  (∃ a s c,
     py_abs g = Ok a ∧ py_add a p = Ok s ∧ py_max0 s = Ok c ∧
     published bus st "/Ac/Power" = Some c ∧
     (py_gt0 s = true → c = s)) ∧
  (∀ n m, g = VInt n → p = VInt m →
     published bus st "/Ac/Power" = Some (VInt (Z.max 0 (Z.abs n + m))) ∧
     (0 ≤ m →
      published bus st "/Ac/Power" = Some (VInt (Z.abs n + m)) ∧
      0 < Z.abs n + m)).
Proof.
  destruct (sound_goes _ _ _ _ _ Hsound Hg Hg1 Hp Hp1) as (Hacc & ct & c1 & Hc).
  unfold published.
  rewrite (update_service_goes _ _ _ _ _ _ _ _ Hg Hg1 Hp Hp1 Hc Hacc).
  rewrite commit_lookup_total.
  apply consumption_Ok in Hc as (importing & t & l & Hlt & Hbranch & Ht & Hl).
  rewrite Himport in Hlt. injection Hlt as <-.
  destruct Hbranch as (x & x1 & Hx & Hxp & _ & _).
  split.
  - exists x, t, ct. split_and!; [done..|]. by apply py_max0_gt0.
  - intros n m -> ->. cbn [py_lt0] in Himport. injection Himport as Hn.
    cbn [py_abs] in Hx. injection Hx as <-.
    cbn [py_add] in Hxp. injection Hxp as <-.
    rewrite py_max0_max in Ht. injection Ht as <-.
    split; [done|]. intros Hm. split; [|lia]. do 2 f_equal. lia.
Qed.

Lemma import_consumption_total_witness :
  published float_import_bus example_state "/Ac/Power" = Some (VFloat 2700.75) ∧
  published import_bus example_state "/Ac/Power" = Some (VInt 2700).
Proof.
  split.
  - destruct (import_consumption_total float_import_bus example_state
                (VFloat (-2300.5)) (VFloat (-2300.5)) (VFloat 400.25) (VFloat 400.25)
                eq_refl eq_refl eq_refl eq_refl ltac:(steady_is_sound)
                eq_refl) as [(a & s & c & Ha & Hs & Hc & Hpub & _) _].
    injection Ha as <-. injection Hs as <-. injection Hc as <-. exact Hpub.
  - destruct (import_consumption_total import_bus example_state
                (VInt (-2300)) (VInt 0) (VInt 400) (VInt 380)
                eq_refl eq_refl eq_refl eq_refl ltac:(steady_is_sound)
                eq_refl) as [_ H].
    destruct (H (-2300) 400 eq_refl eq_refl) as [_ H'].
    exact (proj1 (H' ltac:(lia))).
Defined.

(** C1, as stated, fails: a PV reading below the negated import gives a
    negative sum, and 0 is published instead of it. *)
Lemma import_consumption_total_counterexample :
  reading_of (_grid_power night_bus) = Some (-3) ∧
  reading_of (_grid_l1_power night_bus) = Some (-3) ∧
  reading_of (_pv_power night_bus) = Some (-10) ∧
  reading_of (_pv_l1_power night_bus) = Some (-10) ∧
  -3 < 0 ∧
  published night_bus example_state "/Ac/Power" = Some (VInt 0) ∧
  published night_bus example_state "/Ac/Power" ≠ Some (VInt (Z.abs (-3) + -10)) ∧
  ¬ (0 ≤ Z.abs (-3) + -10).
Proof. vm_compute. repeat split; try done. Qed.

(** C2: when the grid reading (unavailable readings taken as 0) is not
    negative and the tick goes through, the published /Ac/Power is
    max(0, pv_total - grid_total), in Python's arithmetic: exact on [int],
    IEEE on [float], an [int] beside a [float] converted first. *)
Theorem export_consumption_total bus st g g1 p p1
    (Hg : defaulted (_grid_power bus) = Some g)
    (Hg1 : defaulted (_grid_l1_power bus) = Some g1)
    (Hp : defaulted (_pv_power bus) = Some p)
    (Hp1 : defaulted (_pv_l1_power bus) = Some p1)
    (Hsound : sound bus)
    (Hexport : py_ge0 g = true) :
  (∃ d c,
     py_sub p g = Ok d ∧ py_max0 d = Ok c ∧
     published bus st "/Ac/Power" = Some c) ∧
  (∀ n m, g = VInt n → p = VInt m →
     published bus st "/Ac/Power" = Some (VInt (Z.max 0 (m - n)))).
Proof.
  destruct (sound_goes _ _ _ _ _ Hsound Hg Hg1 Hp Hp1) as (Hacc & ct & c1 & Hc).
  unfold published.
  rewrite (update_service_goes _ _ _ _ _ _ _ _ Hg Hg1 Hp Hp1 Hc Hacc).
  rewrite commit_lookup_total.
  apply consumption_Ok in Hc as (importing & t & l & Hlt & Hbranch & Ht & Hl).
  rewrite (py_ge0_not_lt0 _ Hexport) in Hlt. injection Hlt as <-.
  destruct Hbranch as [Hsub _].
  split.
  - by exists t, ct.
  - intros n m -> ->. cbn [py_sub] in Hsub. injection Hsub as <-.
    rewrite py_max0_max in Ht. by injection Ht as <-.
Qed.

(** Scenarios 2 and 3 of the spec; float readings; an [int] that the
    conversion rounds onto the float beside it. *)
Lemma export_consumption_total_witness :
  published (steady (VInt 1715) (VInt 1715) (VInt 2417) (VInt 2417))
    example_state "/Ac/Power" = Some (VInt 702) ∧
  published (steady (VInt 500) (VInt 500) (VInt 100) (VInt 100))
    example_state "/Ac/Power" = Some (VInt 0) ∧
  published float_export_bus example_state "/Ac/Power" = Some (VFloat 702.25) ∧
  published rounding_bus example_state "/Ac/Power" = Some (VInt 0).
Proof.
  split_and!.
  - exact (proj2 (export_consumption_total
      (steady (VInt 1715) (VInt 1715) (VInt 2417) (VInt 2417)) example_state
      (VInt 1715) (VInt 1715) (VInt 2417) (VInt 2417)
      eq_refl eq_refl eq_refl eq_refl ltac:(steady_is_sound) eq_refl)
      1715 2417 eq_refl eq_refl).
  - exact (proj2 (export_consumption_total
      (steady (VInt 500) (VInt 500) (VInt 100) (VInt 100)) example_state
      (VInt 500) (VInt 500) (VInt 100) (VInt 100)
      eq_refl eq_refl eq_refl eq_refl ltac:(steady_is_sound) eq_refl)
      500 100 eq_refl eq_refl).
  - destruct (export_consumption_total float_export_bus example_state
                (VFloat 1715.5) (VFloat 1715.5) (VFloat 2417.75) (VFloat 2417.75)
                eq_refl eq_refl eq_refl eq_refl ltac:(steady_is_sound)
                eq_refl) as [(d & c & Hd & Hc & Hpub) _].
    injection Hd as <-. injection Hc as <-. exact Hpub.
  - destruct (export_consumption_total rounding_bus example_state
                (VFloat 1e16) (VInt 0) (VInt (10 ^ 16 + 1)) (VInt 0)
                eq_refl eq_refl eq_refl eq_refl rounding_bus_sound
                eq_refl) as [(d & c & Hd & Hc & Hpub) _].
    vm_compute in Hd. injection Hd as <-. injection Hc as <-. exact Hpub.
Defined.

(** ** Unavailable readings *)

(** C5: on any bus, turning any subset of the unavailable readings into
    readings of 0 changes nothing of what the tick returns, publishes and
    logs; scenario 5: with the grid total unavailable and a PV total of 500
    the tick publishes 500. *)
Theorem missing_reading_is_zero :
  (∀ f f1 f2 f3 bus st, _update (zero_missing f f1 f2 f3 bus) st = _update bus st) ∧
  (∀ g1 p1 st,
     published (steady VNone (of_reading g1) (VInt 500) (of_reading p1)) st "/Ac/Power"
     = Some (VInt 500)).
Proof.
  split.
  - intros f f1 f2 f3 bus st. unfold _update. f_equal.
    unfold update_try, zero_missing; cbn [_grid_power _grid_l1_power _pv_power
      _pv_l1_power setitem_fault].
    unfold mbind, M_mbind, M_bind, lift.
    destruct f, (_grid_power bus) as [[]|]; cbn [zero_if_missing default0]; try reflexivity;
    destruct f1, (_grid_l1_power bus) as [[]|]; cbn [zero_if_missing default0]; try reflexivity;
    destruct f2, (_pv_power bus) as [[]|]; cbn [zero_if_missing default0]; try reflexivity;
    destruct f3, (_pv_l1_power bus) as [[]|]; cbn [zero_if_missing default0]; reflexivity.
  - intros g1 p1 st. unfold published.
    rewrite (update_normal _ st 0 (default 0 g1) 500 (default 0 p1));
      [| done | by destruct g1 | done | by destruct p1 | apply steady_accepts].
    cbn [snd logging set_service _dbusservice]. by rewrite commit_lookup_total.
Qed.

(** ** What a tick does to the published paths *)

(** A tick either leaves the paths as they were or commits four values, the
    first two of them not negative. *)
Lemma update_service bus st :
  _dbusservice (snd (_update bus st)) = _dbusservice st ∨
  ∃ ct c1, nonneg ct ∧ nonneg c1 ∧
    _dbusservice (snd (_update bus st)) = commit ct c1 (_dbusservice st).
Proof.
  destruct (update_try_cases bus st)
    as [[e He]|(g & g1 & p & p1 & ct & c1 & Hg & Hg1 & Hp & Hp1 & Hc & Hacc)].
  - left. by rewrite (update_Raise _ _ _ He).
  - right. exists ct, c1. destruct (consumption_nonneg _ _ _ _ _ _ Hc).
    split_and!; [done..|]. by eapply update_service_goes.
Qed.

Lemma update_returns_True bus st : fst (_update bus st) = true.
Proof. unfold _update. by destruct (update_try bus st) as [[]]. Qed.

Lemma mainloop_run_cons bus ticks st :
  mainloop_run (bus :: ticks) st = mainloop_run ticks (snd (_update bus st)).
Proof.
  cbn [mainloop_run]. pose proof (update_returns_True bus st).
  destruct (_update bus st) as [[] st']; [done|discriminate].
Qed.

(** A property of the published paths that every tick preserves holds
    throughout the run. *)
Lemma mainloop_run_invariant (P : gmap string Value → Prop) :
  (∀ bus st, P (_dbusservice st) → P (_dbusservice (snd (_update bus st)))) →
  ∀ ticks st, P (_dbusservice st) → P (_dbusservice (mainloop_run ticks st)).
Proof.
  intros Hstep ticks. induction ticks as [|bus ticks IH]; intros st HP; [done|].
  rewrite mainloop_run_cons. by apply IH, Hstep.
Qed.

Lemma init_outputs (__file__ python_version grid_service pv_service : string)
    (update_interval_ms : Z) (log0 : list LogRecord) :
  Forall (fun path =>
      _dbusservice (__init__ __file__ python_version grid_service pv_service
                      update_interval_ms log0) !! path = Some (VInt 0))
    output_paths.
Proof. repeat constructor. Qed.

Lemma init_statics (__file__ python_version grid_service pv_service : string)
    (update_interval_ms : Z) (log0 : list LogRecord) :
  let calculator :=
    __init__ __file__ python_version grid_service pv_service update_interval_ms log0 in
  _dbusservice calculator !! "/Mgmt/ProcessName" = Some (VStr __file__) ∧
  _dbusservice calculator !! "/Mgmt/ProcessVersion"
    = Some (VStr (String.append "v1.0 on Python " python_version)) ∧
  _dbusservice calculator !! "/Mgmt/Connection" = Some (VStr "Calculated from Grid + PV") ∧
  _dbusservice calculator !! "/DeviceInstance" = Some (VInt 100) ∧
  _dbusservice calculator !! "/ProductId" = Some (VInt 0) ∧
  _dbusservice calculator !! "/ProductName" = Some (VStr "Consumption Calculator") ∧
  _dbusservice calculator !! "/CustomName" = Some (VStr "AC Loads") ∧
  _dbusservice calculator !! "/FirmwareVersion" = Some (VFloat 1) ∧
  _dbusservice calculator !! "/HardwareVersion" = Some (VInt 0) ∧
  _dbusservice calculator !! "/Connected" = Some (VInt 1) ∧
  _dbusservice calculator !! "/Role" = Some (VStr "acload") ∧
  _dbusservice calculator !! "/Serial" = Some (VStr "CALC001").
Proof. intros calculator. repeat split. Qed.

(** C10: once the constructor has run, and before any tick, each of the
    four power outputs reads 0. *)
Theorem outputs_zero_at_registration
    (__file__ python_version grid_service pv_service : string)
    (update_interval_ms : Z) (log0 : list LogRecord) :
  let calculator :=
    __init__ __file__ python_version grid_service pv_service update_interval_ms log0 in
  _dbusservice calculator !! "/Ac/Power" = Some (VInt 0) ∧
  _dbusservice calculator !! "/Ac/L1/Power" = Some (VInt 0) ∧
  _dbusservice calculator !! "/Ac/L2/Power" = Some (VInt 0) ∧
  _dbusservice calculator !! "/Ac/L3/Power" = Some (VInt 0) ∧
  mainloop_run [] calculator = calculator.
Proof. repeat split. Qed.

(** ** Invariants of the published result *)

Lemma outputs_nonneg_commit ct c1 m :
  nonneg ct → nonneg c1 → outputs_nonneg (commit ct c1 m).
Proof.
  intros Hct Hc1. unfold outputs_nonneg, output_paths.
  rewrite !Forall_cons, Forall_nil. split_and!; [| | | |done].
  - exists ct. by rewrite commit_lookup_total.
  - exists c1. by rewrite commit_lookup_l1.
  - exists (VInt 0). by rewrite commit_lookup_l2.
  - exists (VInt 0). by rewrite commit_lookup_l3.
Qed.

Lemma outputs_nonneg_update bus st :
  outputs_nonneg (_dbusservice st) →
  outputs_nonneg (_dbusservice (snd (_update bus st))).
Proof.
  intros Hinv.
  destruct (update_service bus st) as [->|(ct & c1 & Hct & Hc1 & ->)]; [done|].
  by apply outputs_nonneg_commit.
Qed.

(** C6: at registration and after any number of ticks, whatever the bus
    answered at each of them (values, missing values, faults), each of
    /Ac/Power, /Ac/L1/Power, /Ac/L2/Power and /Ac/L3/Power holds a number
    that is not negative: an [int] n with 0 <= n or a [float] f with
    0 <= f. *)
Theorem published_fields_nonneg
    (__file__ python_version grid_service pv_service : string)
    (update_interval_ms : Z) (log0 : list LogRecord) (ticks : list Bus) :
  let st := mainloop_run ticks
    (__init__ __file__ python_version grid_service pv_service update_interval_ms log0) in
  (∃ v, _dbusservice st !! "/Ac/Power" = Some v ∧ py_ge0 v = true) ∧
  (∃ v, _dbusservice st !! "/Ac/L1/Power" = Some v ∧ py_ge0 v = true) ∧
  (∃ v, _dbusservice st !! "/Ac/L2/Power" = Some v ∧ py_ge0 v = true) ∧
  (∃ v, _dbusservice st !! "/Ac/L3/Power" = Some v ∧ py_ge0 v = true).
Proof.
  intros st.
  assert (outputs_nonneg (_dbusservice st)) as H.
  { apply (mainloop_run_invariant outputs_nonneg); [apply outputs_nonneg_update|].
    eapply Forall_impl; [apply init_outputs|].
    intros path Hp. exists (VInt 0). split; [exact Hp|done]. }
  unfold outputs_nonneg, output_paths in H.
  rewrite !Forall_cons in H. unfold nonneg_at, nonneg in H. tauto.
Qed.

Lemma unused_phases_zero_update bus st :
  unused_phases_zero (_dbusservice st) →
  unused_phases_zero (_dbusservice (snd (_update bus st))).
Proof.
  intros Hinv.
  destruct (update_service bus st) as [->|(ct & c1 & _ & _ & ->)]; [done|].
  split; [apply commit_lookup_l2|apply commit_lookup_l3].
Qed.

(** C7: at every point of the run, whatever the bus answered at each tick,
    /Ac/L2/Power and /Ac/L3/Power hold exactly the [int] 0. *)
Theorem unused_phases_always_zero
    (__file__ python_version grid_service pv_service : string)
    (update_interval_ms : Z) (log0 : list LogRecord) (ticks : list Bus) :
  let st := mainloop_run ticks
    (__init__ __file__ python_version grid_service pv_service update_interval_ms log0) in
  _dbusservice st !! "/Ac/L2/Power" = Some (VInt 0) ∧
  _dbusservice st !! "/Ac/L3/Power" = Some (VInt 0).
Proof.
  intros st.
  apply (mainloop_run_invariant unused_phases_zero); [apply unused_phases_zero_update|].
  by split.
Qed.

(** ** Ticks repeated on the same readings *)

Lemma commit_idemp ct c1 m : commit ct c1 (commit ct c1 m) = commit ct c1 m.
Proof.
  apply map_eq; intros path. unfold commit.
  destruct (decide (path = "/Ac/L3/Power")) as [->|]; [by simplify_map_eq|].
  destruct (decide (path = "/Ac/L2/Power")) as [->|]; [by simplify_map_eq|].
  destruct (decide (path = "/Ac/L1/Power")) as [->|]; [by simplify_map_eq|].
  destruct (decide (path = "/Ac/Power")) as [->|]; by simplify_map_eq.
Qed.

Lemma update_idemp bus st :
  _dbusservice (snd (_update bus (snd (_update bus st))))
  = _dbusservice (snd (_update bus st)).
Proof.
  destruct (update_try_cases bus (snd (_update bus st)))
    as [[e He]|(g & g1 & p & p1 & ct & c1 & Hg & Hg1 & Hp & Hp1 & Hc & Hacc)].
  - by rewrite (update_Raise _ _ _ He).
  - rewrite !(update_service_goes _ _ _ _ _ _ _ _ Hg Hg1 Hp Hp1 Hc Hacc).
    apply commit_idemp.
Qed.

(** C8: a second tick on the same bus answers leaves every published path
    as the first tick left it; and when the tick goes through, what it
    publishes on the four outputs is the same from any two prior states. *)
Theorem update_idempotent :
  (∀ bus st path,
     published bus (snd (_update bus st)) path = published bus st path) ∧
  (∀ bus st st' g g1 p p1 path,
     reading_of (_grid_power bus) = Some g →
     reading_of (_grid_l1_power bus) = Some g1 →
     reading_of (_pv_power bus) = Some p →
     reading_of (_pv_l1_power bus) = Some p1 →
     accepts bus →
     path ∈ output_paths →
     published bus st path = published bus st' path).
Proof.
  split.
  - intros bus st path. unfold published. by rewrite update_idemp.
  - intros bus st st' g g1 p p1 path Hg Hg1 Hp Hp1 Hacc Hin. unfold published.
    rewrite !(update_normal _ _ _ _ _ _ Hg Hg1 Hp Hp1 Hacc).
    cbn [snd logging set_service _dbusservice].
    unfold output_paths in Hin. set_unfold in Hin.
    destruct Hin as [->|[->|[->|[->|[]]]]].
    + by rewrite !commit_lookup_total.
    + by rewrite !commit_lookup_l1.
    + by rewrite !commit_lookup_l2.
    + by rewrite !commit_lookup_l3.
Qed.

Lemma update_idempotent_witness :
  published import_bus example_state "/Ac/L1/Power"
  = published import_bus (snd (_update import_bus example_state)) "/Ac/L1/Power" ∧
  published import_bus example_state "/Ac/L1/Power" = Some (VInt 380).
Proof.
  split; [|reflexivity].
  refine (proj2 update_idempotent import_bus example_state
            (snd (_update import_bus example_state))
            (-2300) 0 400 380 "/Ac/L1/Power"
            eq_refl eq_refl eq_refl eq_refl (steady_accepts _ _ _ _) _).
  unfold output_paths. apply list_elem_of_In. simpl. tauto.
Defined.

(** ** What a tick leaves alone *)

Lemma update_frame bus st path :
  path ∉ output_paths → published bus st path = _dbusservice st !! path.
Proof.
  intros Hnin. unfold published.
  destruct (update_service bus st) as [->|(ct & c1 & _ & _ & ->)]; [done|].
  by apply commit_lookup_other.
Qed.

Lemma update_keeps_registration bus st :
  registered (snd (_update bus st)) = registered st ∧
  timer (snd (_update bus st)) = timer st.
Proof.
  destruct (update_try_cases bus st)
    as [[e He]|(g & g1 & p & p1 & ct & c1 & Hg & Hg1 & Hp & Hp1 & Hc & Hacc)].
  - by rewrite (update_Raise _ _ _ He).
  - by rewrite (update_goes _ _ _ _ _ _ _ _ Hg Hg1 Hp Hp1 Hc Hacc).
Qed.

Lemma mainloop_run_frame ticks st path :
  path ∉ output_paths →
  _dbusservice (mainloop_run ticks st) !! path = _dbusservice st !! path.
Proof.
  intros Hnin.
  apply (mainloop_run_invariant (fun m => m !! path = _dbusservice st !! path)); [|done].
  intros bus st' <-. by apply update_frame.
Qed.

(** C9: a tick changes no path other than /Ac/Power, /Ac/L1/Power,
    /Ac/L2/Power and /Ac/L3/Power: every other path, and so each of the
    twelve identity and management paths, holds after any number of ticks
    the value it was registered with. *)
Theorem update_writes_only_outputs
    (__file__ python_version grid_service pv_service : string)
    (update_interval_ms : Z) (log0 : list LogRecord) :
  let calculator :=
    __init__ __file__ python_version grid_service pv_service update_interval_ms log0 in
  (∀ bus st path,
     path ∉ output_paths → published bus st path = _dbusservice st !! path) ∧
  (∀ ticks path,
     path ∉ output_paths →
     _dbusservice (mainloop_run ticks calculator) !! path
     = _dbusservice calculator !! path) ∧
  (∀ ticks,
     let st := mainloop_run ticks calculator in
     _dbusservice st !! "/Mgmt/ProcessName" = Some (VStr __file__) ∧
     _dbusservice st !! "/Mgmt/ProcessVersion"
       = Some (VStr (String.append "v1.0 on Python " python_version)) ∧
     _dbusservice st !! "/Mgmt/Connection" = Some (VStr "Calculated from Grid + PV") ∧
     _dbusservice st !! "/DeviceInstance" = Some (VInt 100) ∧
     _dbusservice st !! "/ProductId" = Some (VInt 0) ∧
     _dbusservice st !! "/ProductName" = Some (VStr "Consumption Calculator") ∧
     _dbusservice st !! "/CustomName" = Some (VStr "AC Loads") ∧
     _dbusservice st !! "/FirmwareVersion" = Some (VFloat 1) ∧
     _dbusservice st !! "/HardwareVersion" = Some (VInt 0) ∧
     _dbusservice st !! "/Connected" = Some (VInt 1) ∧
     _dbusservice st !! "/Role" = Some (VStr "acload") ∧
     _dbusservice st !! "/Serial" = Some (VStr "CALC001")).
Proof.
  intros calculator. split_and!.
  - apply update_frame.
  - intros ticks path. apply mainloop_run_frame.
  - intros ticks st. subst st.
    rewrite !mainloop_run_frame
      by (unfold output_paths; rewrite list_elem_of_In; simpl; intuition discriminate).
    apply init_statics.
Qed.

Lemma update_writes_only_outputs_witness :
  published (steady (VInt (-2300)) (VInt (-2300)) (VInt 400) (VInt 400))
    example_state "/DeviceInstance" = Some (VInt 100).
Proof.
  refine (proj1 (update_writes_only_outputs "/data/dbus-consumption-calculator.py"
                   "3.8.13" grid_service pv_service 2000 []) _ example_state
            "/DeviceInstance" _).
  unfold output_paths. rewrite list_elem_of_In. simpl. intuition discriminate.
Defined.

(** ** Faulting ticks *)

(** Where a fault can come from: a read that raises, arithmetic on a
    reading that is not a number, an assignment the store refuses. *)
Lemma read_fault bus st e :
  _grid_power bus = Raise e ∨
  (∃ v, _grid_power bus = Ok v ∧
     (_grid_l1_power bus = Raise e ∨
      ∃ v1, _grid_l1_power bus = Ok v1 ∧
        (_pv_power bus = Raise e ∨
         ∃ w, _pv_power bus = Ok w ∧ _pv_l1_power bus = Raise e))) →
  update_try bus st = (Raise e, st).
Proof.
  unfold update_try, mbind, M_mbind, M_bind, lift.
  intros [->|(v & -> & [->|(v1 & -> & [->|(w & -> & ->)])])]; reflexivity.
Qed.

(** What each operator can raise, and on what it returns. *)
Lemma float_of_int_Raise n e : float_of_int n = Raise e → e = OverflowError.
Proof.
  unfold float_of_int. destruct (binary_normalize _ _ _ _ _); congruence.
Qed.

Lemma py_lt0_Ok v b : py_lt0 v = Ok b → is_int v || is_float v = true.
Proof. by destruct v. Qed.

Lemma py_abs_Ok v x :
  py_abs v = Ok x →
  is_int v || is_float v = true ∧ is_int x = is_int v ∧ is_float x = is_float v.
Proof. destruct v; cbn [py_abs]; try discriminate; by intros [= <-]. Qed.

Lemma py_add_Ok a b c :
  py_add a b = Ok c → is_int a || is_float a = true →
  is_int b || is_float b = true.
Proof. by destruct a, b. Qed.

Lemma py_sub_Ok a b c :
  py_sub a b = Ok c →
  is_int a || is_float a = true ∧ is_int b || is_float b = true.
Proof. by destruct a, b. Qed.

Lemma py_lt0_Raise v e : py_lt0 v = Raise e → e = TypeError.
Proof. destruct v; cbn [py_lt0]; congruence. Qed.

Lemma py_abs_Raise v e : py_abs v = Raise e → e = TypeError.
Proof. destruct v; cbn [py_abs]; congruence. Qed.

Lemma py_max0_Raise v e : py_max0 v = Raise e → e = TypeError.
Proof. destruct v; cbn [py_max0]; congruence. Qed.

Lemma py_add_Raise a b e :
  py_add a b = Raise e →
  e = TypeError ∨
  e = OverflowError ∧ (is_int a && is_float b || is_float a && is_int b = true).
Proof.
  destruct a as [|x|f|s], b as [|y|g|t]; cbn [py_add mbind Exc_mbind Exc_bind];
    try (intros [= <-]; by left).
  - destruct (float_of_int x) eqn:E; cbn [Exc_bind]; [discriminate|].
    intros [= <-]. right. by rewrite (float_of_int_Raise _ _ E).
  - destruct (float_of_int y) eqn:E; cbn [Exc_bind]; [discriminate|].
    intros [= <-]. right. by rewrite (float_of_int_Raise _ _ E).
Qed.

Lemma py_sub_Raise a b e :
  py_sub a b = Raise e →
  e = TypeError ∨
  e = OverflowError ∧ (is_int a && is_float b || is_float a && is_int b = true).
Proof.
  destruct a as [|x|f|s], b as [|y|g|t]; cbn [py_sub mbind Exc_mbind Exc_bind];
    try (intros [= <-]; by left).
  - destruct (float_of_int x) eqn:E; cbn [Exc_bind]; [discriminate|].
    intros [= <-]. right. by rewrite (float_of_int_Raise _ _ E).
  - destruct (float_of_int y) eqn:E; cbn [Exc_bind]; [discriminate|].
    intros [= <-]. right. by rewrite (float_of_int_Raise _ _ E).
Qed.

(** The arithmetic goes through on numbers only. *)
Lemma consumption_Ok_numbers a b c d r :
  consumption a b c d = Ok r →
  Forall (fun v => is_int v || is_float v = true) [a; b; c; d].
Proof.
  destruct r as [ct c1].
  intros (importing & t & l & Hlt & Hbranch & _ & _)%consumption_Ok.
  apply py_lt0_Ok in Hlt. destruct importing.
  - destruct Hbranch as (x & x1 & Hx & Hxc & Hx1 & Hx1d).
    apply py_abs_Ok in Hx as (_ & Hxi & Hxf).
    apply py_abs_Ok in Hx1 as (Hb & Hx1i & Hx1f).
    apply py_add_Ok in Hxc; [|by rewrite Hxi, Hxf].
    apply py_add_Ok in Hx1d; [|by rewrite Hx1i, Hx1f].
    by repeat constructor.
  - destruct Hbranch as [[Hc Ha]%py_sub_Ok [Hd Hb]%py_sub_Ok].
    by repeat constructor.
Qed.

(** The arithmetic raises [TypeError], or [OverflowError] when an [int]
    is beside a [float]. *)
Lemma consumption_Raise_inv a b c d e :
  consumption a b c d = Raise e →
  e = TypeError ∨
  e = OverflowError ∧ Exists (fun v => is_float v = true) [a; b; c; d].
Proof.
  assert (∀ x y, is_int x && is_float y || is_float x && is_int y = true →
                 is_float x = true ∨ is_float y = true) as Hmix
    by (intros [] []; cbn; auto).
  unfold consumption.
  destruct (py_lt0 a) as [[]|] eqn:Hlt; cbn [mbind Exc_mbind Exc_bind].
  - destruct (py_abs a) as [x|] eqn:Hx; cbn [mbind Exc_mbind Exc_bind];
      [|intros [= <-]; left; by eapply py_abs_Raise].
    apply py_abs_Ok in Hx as (_ & _ & Hxf).
    destruct (py_add x c) as [t|] eqn:Ht; cbn [mbind Exc_mbind Exc_bind].
    2:{ intros [= <-]. apply py_add_Raise in Ht as [?|[-> Hm]]; [by left|right].
        split; [done|]. apply Hmix in Hm as [Hm|Hm].
        - rewrite Hxf in Hm. by apply Exists_cons_hd.
        - by do 2 apply Exists_cons_tl; apply Exists_cons_hd. }
    destruct (py_abs b) as [x1|] eqn:Hx1; cbn [mbind Exc_mbind Exc_bind];
      [|intros [= <-]; left; by eapply py_abs_Raise].
    apply py_abs_Ok in Hx1 as (_ & _ & Hx1f).
    destruct (py_add x1 d) as [l|] eqn:Hl;
      cbn [mbind Exc_mbind Exc_bind mret Exc_mret].
    2:{ intros [= <-]. apply py_add_Raise in Hl as [?|[-> Hm]]; [by left|right].
        split; [done|]. apply Hmix in Hm as [Hm|Hm].
        - rewrite Hx1f in Hm. by apply Exists_cons_tl, Exists_cons_hd.
        - by do 3 apply Exists_cons_tl; apply Exists_cons_hd. }
    destruct (py_max0 t) as [ct|] eqn:Ect; cbn [mbind Exc_mbind Exc_bind];
      [|intros [= <-]; left; by eapply py_max0_Raise].
    destruct (py_max0 l) as [c1|] eqn:Ec1;
      cbn [mbind Exc_mbind Exc_bind mret Exc_mret];
      [discriminate|intros [= <-]; left; by eapply py_max0_Raise].
  - destruct (py_sub c a) as [t|] eqn:Ht; cbn [mbind Exc_mbind Exc_bind].
    2:{ intros [= <-]. apply py_sub_Raise in Ht as [?|[-> Hm]]; [by left|right].
        split; [done|]. apply Hmix in Hm as [Hm|Hm].
        - by do 2 apply Exists_cons_tl; apply Exists_cons_hd.
        - by apply Exists_cons_hd. }
    destruct (py_sub d b) as [l|] eqn:Hl;
      cbn [mbind Exc_mbind Exc_bind mret Exc_mret].
    2:{ intros [= <-]. apply py_sub_Raise in Hl as [?|[-> Hm]]; [by left|right].
        split; [done|]. apply Hmix in Hm as [Hm|Hm].
        - by do 3 apply Exists_cons_tl; apply Exists_cons_hd.
        - by apply Exists_cons_tl, Exists_cons_hd. }
    destruct (py_max0 t) as [ct|] eqn:Ect; cbn [mbind Exc_mbind Exc_bind];
      [|intros [= <-]; left; by eapply py_max0_Raise].
    destruct (py_max0 l) as [c1|] eqn:Ec1;
      cbn [mbind Exc_mbind Exc_bind mret Exc_mret];
      [discriminate|intros [= <-]; left; by eapply py_max0_Raise].
  - intros [= <-]. left. by eapply py_lt0_Raise.
Qed.

(** A reading that is not a number makes the arithmetic raise. *)
Lemma compute_fault bus st v v1 w w1 :
  _grid_power bus = Ok v → _grid_l1_power bus = Ok v1 →
  _pv_power bus = Ok w → _pv_l1_power bus = Ok w1 →
  (∃ s, VStr s ∈ [v; v1; w; w1]) →
  ∃ e, update_try bus st = (Raise e, st) ∧
       (e = TypeError ∨
        e = OverflowError ∧ Exists (fun x => is_float x = true) [v; v1; w; w1]).
Proof.
  intros Hv Hv1 Hw Hw1 [s Hs].
  unfold update_try, mbind, M_mbind, M_bind, lift. rewrite Hv, Hv1, Hw, Hw1.
  destruct (consumption _ _ _ _) as [r|e] eqn:Hc.
  - apply consumption_Ok_numbers in Hc. rewrite !Forall_cons in Hc.
    destruct Hc as (Ha & Hb & Hc & Hd & _). set_unfold in Hs.
    destruct Hs as [<-|[<-|[<-|[<-|[]]]]]; discriminate.
  - exists e. split; [done|].
    apply consumption_Raise_inv in Hc as [->|[-> Hf]]; [by left|right].
    split; [done|]. rewrite !Exists_cons in Hf |- *.
    destruct v, v1, w, w1; cbn in *; tauto.
Qed.

Lemma publish_fault bus st path e :
  path ∈ output_paths → setitem_fault bus path = Some e →
  ∃ e', update_try bus st = (Raise e', st).
Proof.
  intros Hin Hf.
  destruct (update_try_cases bus st)
    as [?|(g & g1 & p & p1 & ct & c1 & _ & _ & _ & _ & _ & Hacc)]; [done|].
  rewrite (Hacc path Hin) in Hf. discriminate.
Qed.

(** C3: when anything raises during the [try] of a tick, [_update] logs the
    exception and returns [True]; every published path reads as before the
    tick; and a following tick with sound readings goes through, publishes
    its consumption and logs it. *)
Theorem tick_fault_absorbed bus st e st1
    (Hfault : update_try bus st = (Raise e, st1)) :
  _update bus st = (true, logging (LogError e) st) ∧
  (∀ path, published bus st path = _dbusservice st !! path) ∧
  (∀ bus' g g1 p p1,
     reading_of (_grid_power bus') = Some g →
     reading_of (_grid_l1_power bus') = Some g1 →
     reading_of (_pv_power bus') = Some p →
     reading_of (_pv_l1_power bus') = Some p1 →
     accepts bus' →
     let ct := Z.max 0 (if g <? 0 then Z.abs g + p else p - g) in
     let c1 := Z.max 0 (if g <? 0 then Z.abs g1 + p1 else p1 - g1) in
     let st2 := mainloop_run [bus; bus'] st in
     _dbusservice st2 = commit (VInt ct) (VInt c1) (_dbusservice st) ∧
     log st2 = (log st ++ [LogError e; LogDebug (VInt g) (VInt p) (VInt ct)])%list).
Proof.
  pose proof (update_try_Raise _ _ _ _ Hfault) as ->.
  pose proof (update_Raise _ _ _ Hfault) as Hupd.
  split_and!; [done| |].
  - intros path. unfold published. by rewrite Hupd.
  - intros bus' g g1 p p1 Hg Hg1 Hp Hp1 Hacc ct c1 st2. subst st2.
    rewrite !mainloop_run_cons, Hupd. cbn [snd mainloop_run].
    rewrite (update_normal _ _ _ _ _ _ Hg Hg1 Hp Hp1 Hacc).
    cbn [snd logging set_service _dbusservice log].
    split; [done|]. by rewrite <- app_assoc.
Qed.

Lemma tick_fault_absorbed_witness :
  Forall (fun bus =>
    fst (_update bus example_state) = true ∧
    (∀ path, published bus example_state path = _dbusservice example_state !! path) ∧
    _dbusservice (mainloop_run
       [bus; steady (VInt 1715) (VInt 1715) (VInt 2417) (VInt 2417)] example_state)
      !! "/Ac/Power" = Some (VInt 702))
  [read_faulting; compute_faulting; publish_faulting].
Proof.
  assert (∀ bus e, update_try bus example_state = (Raise e, example_state) →
    fst (_update bus example_state) = true ∧
    (∀ path, published bus example_state path = _dbusservice example_state !! path) ∧
    _dbusservice (mainloop_run
       [bus; steady (VInt 1715) (VInt 1715) (VInt 2417) (VInt 2417)] example_state)
      !! "/Ac/Power" = Some (VInt 702)) as H.
  { intros bus e He.
    destruct (tick_fault_absorbed bus example_state e example_state He)
      as (Hupd & Hframe & Hnext).
    split_and!; [by rewrite Hupd|exact Hframe|].
    destruct (Hnext (steady (VInt 1715) (VInt 1715) (VInt 2417) (VInt 2417))
                1715 1715 2417 2417 eq_refl eq_refl eq_refl eq_refl
                (steady_accepts _ _ _ _)) as [-> _].
    by rewrite commit_lookup_total. }
  repeat apply Forall_cons_2; [..|apply Forall_nil_2].
  - exact (H read_faulting _ eq_refl).
  - exact (H compute_faulting _ eq_refl).
  - exact (H publish_faulting _ eq_refl).
Defined.

(** ** Waiting for the services at startup *)

Lemma probes_events k s ev :
  ev ∈ probes k s → ev = GetObject s ∨ ev = Sleep 2.
Proof.
  unfold probes. induction k as [|k IH]; cbn [retries app].
  - rewrite list_elem_of_singleton. by left.
  - rewrite !elem_of_cons. intros [->|[->|H]]; [by left|by right|by apply IH].
Qed.

Lemma probes_attempts k s :
  length (filter (fun ev => ev = GetObject s) (probes k s)) = S k ∧
  length (filter (fun ev => ev = Sleep 2) (probes k s)) = k.
Proof.
  unfold probes. induction k as [|k [IH1 IH2]]; cbn [retries app].
  - split; [by rewrite filter_cons_True|by rewrite filter_cons_False].
  - rewrite (filter_cons_True (fun ev => ev = GetObject s)) by done.
    rewrite (filter_cons_False (fun ev => ev = GetObject s)) by done.
    rewrite (filter_cons_False (fun ev => ev = Sleep 2)) by done.
    rewrite (filter_cons_True (fun ev => ev = Sleep 2)) by done.
    cbn [length]. by rewrite IH1, IH2.
Qed.

Section Discovery.

Variable get_object : list Event → string → bool.

Lemma found_or_never tr s : never_found get_object tr s ∨ ∃ k, found_at get_object tr s k.
Proof.
  unfold never_found, found_at. generalize max_retries as n.
  induction n as [|n [IH|(k & Hk & Hf & Hlt)]].
  - left. lia.
  - destruct (get_object (tr ++ retries n s) s) eqn:E.
    + right. exists n. split_and!; [lia|done|]. intros j Hj. apply IH. lia.
    + left. intros j Hj. destruct (decide (j = n)) as [->|]; [done|].
      apply IH. lia.
  - right. exists k. split_and!; [lia|done..].
Qed.

Lemma retry_trace (tr : list Event) s (l : list Event) :
  (((tr ++ [GetObject s]) ++ [Sleep 2]) ++ l = tr ++ GetObject s :: Sleep 2 :: l)%list.
Proof. by rewrite <- !app_assoc. Qed.

Lemma wait_loop_found s k : ∀ fuel retry_count w,
  (retry_count + k < max_retries)%nat → (k < fuel)%nat →
  (∀ j, (j < k)%nat → get_object (trace w ++ retries j s) s = false) →
  get_object (trace w ++ retries k s) s = true →
  wait_loop get_object fuel s retry_count w
  = Some (Next (mkWorld (trace w ++ probes k s) (wlog w ++ [LogFound s]))).
Proof.
  induction k as [|k IH]; intros [|fuel] rc w Hrc Hfuel Hno Hyes; try lia;
    cbn [wait_loop]; (destruct (Nat.ltb_spec rc max_retries); [|lia]).
  - cbn [retries] in Hyes. rewrite app_nil_r in Hyes. by rewrite Hyes.
  - pose proof (Hno 0%nat ltac:(lia)) as H0. cbn [retries] in H0.
    rewrite app_nil_r in H0. rewrite H0.
    destruct (Nat.leb_spec max_retries (S rc)); [lia|].
    rewrite (IH fuel (S rc)); cbn [emit trace wlog]; [|lia|lia| |].
    + unfold probes. cbn [retries]. by rewrite retry_trace.
    + intros j Hj. rewrite retry_trace. apply (Hno (S j)). lia.
    + rewrite retry_trace. apply Hyes.
Qed.

Lemma wait_loop_exhausted s k : ∀ fuel retry_count w,
  (retry_count + k + 1 = max_retries)%nat → (k < fuel)%nat →
  (∀ j, (j ≤ k)%nat → get_object (trace w ++ retries j s) s = false) →
  wait_loop get_object fuel s retry_count w
  = Some (SysExit 1 (mkWorld (trace w ++ probes k s)
                             (wlog w ++ [LogNotFound s max_retries]))).
Proof.
  induction k as [|k IH]; intros [|fuel] rc w Hrc Hfuel Hno; try lia;
    cbn [wait_loop]; (destruct (Nat.ltb_spec rc max_retries); [|lia]);
    pose proof (Hno 0%nat ltac:(lia)) as H0; cbn [retries] in H0;
    rewrite app_nil_r in H0; rewrite H0.
  - by destruct (Nat.leb_spec max_retries (S rc)); [|lia].
  - destruct (Nat.leb_spec max_retries (S rc)); [lia|].
    rewrite (IH fuel (S rc)); cbn [emit trace wlog]; [|lia|lia|].
    + unfold probes. cbn [retries]. by rewrite retry_trace.
    + intros j Hj. rewrite retry_trace. apply (Hno (S j)). lia.
Qed.

(** The loop of one service, started as [main] starts it. *)
Lemma wait_loop_never s w :
  never_found get_object (trace w) s →
  wait_loop get_object max_retries s 0 w
  = Some (SysExit 1 (mkWorld (trace w ++ probes (max_retries - 1) s)
                             (wlog w ++ [LogNotFound s max_retries]))).
Proof.
  unfold never_found. intros Hno.
  apply wait_loop_exhausted; unfold max_retries in *; try lia.
  intros j Hj. apply Hno. lia.
Qed.

Lemma wait_loop_found_at s w k :
  found_at get_object (trace w) s k →
  wait_loop get_object max_retries s 0 w
  = Some (Next (mkWorld (trace w ++ probes k s) (wlog w ++ [LogFound s]))).
Proof.
  intros (Hk & Hyes & Hno). apply wait_loop_found; try done; lia.
Qed.

End Discovery.

Section DiscoveryOutcome.

Variable get_object : list Event → string → bool.
Variable w : World.

Lemma wait_for_services_grid_missing :
  never_found get_object (trace w) grid_service →
  wait_for_services get_object max_retries w
  = Some (SysExit 1
      (mkWorld (trace w ++ probes (max_retries - 1) grid_service)
               (wlog w ++ [LogWaiting grid_service;
                           LogNotFound grid_service max_retries]))).
Proof.
  intros Hno. unfold wait_for_services. cbn [for_services].
  rewrite wait_loop_never by done. cbn [wlogging trace wlog].
  by rewrite <- app_assoc.
Qed.

Lemma wait_for_services_pv_missing k :
  found_at get_object (trace w) grid_service k →
  never_found get_object (trace w ++ probes k grid_service) pv_service →
  wait_for_services get_object max_retries w
  = Some (SysExit 1
      (mkWorld ((trace w ++ probes k grid_service) ++ probes (max_retries - 1) pv_service)
               (wlog w ++ [LogWaiting grid_service; LogFound grid_service;
                           LogWaiting pv_service;
                           LogNotFound pv_service max_retries]))).
Proof.
  intros Hgrid Hno. unfold wait_for_services. cbn [for_services].
  rewrite (wait_loop_found_at _ _ _ k) by done. cbn [wlogging trace wlog].
  rewrite wait_loop_never by done. cbn [wlogging trace wlog].
  by rewrite <- !app_assoc.
Qed.

Lemma wait_for_services_both k j :
  found_at get_object (trace w) grid_service k →
  found_at get_object (trace w ++ probes k grid_service) pv_service j →
  wait_for_services get_object max_retries w
  = Some (Next
      (mkWorld ((trace w ++ probes k grid_service) ++ probes j pv_service)
               (wlog w ++ [LogWaiting grid_service; LogFound grid_service;
                           LogWaiting pv_service; LogFound pv_service]))).
Proof.
  intros Hgrid Hpv. unfold wait_for_services. cbn [for_services].
  rewrite (wait_loop_found_at _ _ _ k) by done. cbn [wlogging trace wlog].
  rewrite (wait_loop_found_at _ _ _ j) by done. cbn [wlogging trace wlog].
  by rewrite <- !app_assoc.
Qed.

(** With [max_retries] units of fuel the two loops always finish. *)
Lemma wait_for_services_total :
  ∃ flow, wait_for_services get_object max_retries w = Some flow.
Proof.
  destruct (found_or_never get_object (trace w) grid_service) as [Hno|[k Hk]].
  - rewrite wait_for_services_grid_missing by done. eauto.
  - destruct (found_or_never get_object (trace w ++ probes k grid_service) pv_service) as [Hno|[j Hj]].
    + rewrite (wait_for_services_pv_missing k) by done. eauto.
    + rewrite (wait_for_services_both k j) by done. eauto.
Qed.

End DiscoveryOutcome.

(** C4: [main] looks the grid service up, then the PV service.  Each
    service is looked up at most [max_retries] = 30 times, with a sleep of 2
    seconds after each failed look-up but the last.  When the 30 look-ups of
    the grid service fail, the process exits with status 1 and the PV
    service has not been looked up; when the grid service is found and the
    30 look-ups of the PV service fail, the process exits with status 1;
    otherwise the calculator is constructed, and runs unless its constructor
    raises, which also ends the process with status 1.  Startup always
    reaches one of these outcomes. *)
Theorem startup_discovery (__file__ python_version : string)
    (get_object : list Event → string → bool) (construct_fault : option exn)
    (ticks : list Bus) :
  let run :=
    main __file__ python_version get_object construct_fault max_retries ticks in
  max_retries = 30%nat ∧
  (∃ outcome, run = Some outcome) ∧
  (never_found get_object [] grid_service →
     run = Some (Exited 1
       (mkWorld (probes 29 grid_service)
          (header ++ [LogWaiting grid_service; LogNotFound grid_service 30]))) ∧
     GetObject pv_service ∉ probes 29 grid_service) ∧
  (∀ k, found_at get_object [] grid_service k →
     (k < 30)%nat ∧
     (never_found get_object (probes k grid_service) pv_service →
        run = Some (Exited 1
          (mkWorld (probes k grid_service ++ probes 29 pv_service)
             (header ++ [LogWaiting grid_service; LogFound grid_service;
                         LogWaiting pv_service; LogNotFound pv_service 30])))) ∧
     (∀ j, found_at get_object (probes k grid_service) pv_service j →
        (j < 30)%nat ∧
        (construct_fault = None →
         ∃ calculator,
           run = Some (Running
             (mkWorld (probes k grid_service ++ probes j pv_service)
                (header ++ [LogWaiting grid_service; LogFound grid_service;
                            LogWaiting pv_service; LogFound pv_service]))
             calculator)) ∧
        (∀ e, construct_fault = Some e →
           run = Some (Exited 1
             (mkWorld (probes k grid_service ++ probes j pv_service)
                (header ++ [LogWaiting grid_service; LogFound grid_service;
                            LogWaiting pv_service; LogFound pv_service;
                            LogCritical e])))))) ∧
  (∀ k s,
     length (filter (fun ev => ev = GetObject s) (probes k s)) = S k ∧
     length (filter (fun ev => ev = Sleep 2) (probes k s)) = k ∧
     ∀ ev, ev ∈ probes k s → ev = GetObject s ∨ ev = Sleep 2).
Proof.
  intros run. subst run. unfold main.
  change (wlogging _ (wlogging _ (wlogging _ _))) with (mkWorld [] header).
  set (w := mkWorld [] header).
  split_and!; [done| | | |].
  - destruct (wait_for_services_total get_object w) as [[w'|code w'] ->]; [|eauto].
    destruct construct_fault; cbn [ConsumptionCalculator]; eauto.
  - intros Hno. split.
    + by rewrite (wait_for_services_grid_missing get_object w Hno).
    + intros [H|H]%probes_events; discriminate.
  - intros k Hk. split_and!; [apply Hk| |].
    + intros Hno.
      by rewrite (wait_for_services_pv_missing get_object w k Hk Hno).
    + intros j Hj. split; [apply Hj|].
      rewrite (wait_for_services_both get_object w k j Hk Hj). split.
      * intros ->. cbn [ConsumptionCalculator]. eauto.
      * intros e ->. cbn [ConsumptionCalculator wlogging trace wlog].
        by rewrite <- app_assoc.
  - intros k s. destruct (probes_attempts k s). split_and!; [done..|].
    apply probes_events.
Qed.

(** A bus on which the grid service never appears. *)
Lemma startup_discovery_witness :
  main "/data/dbus-consumption-calculator.py" "3.8.13" (fun _ _ => false) None
    max_retries []
  = Some (Exited 1
       (mkWorld (probes 29 grid_service)
          (header ++ [LogWaiting grid_service; LogNotFound grid_service 30]))).
Proof.
  destruct (startup_discovery "/data/dbus-consumption-calculator.py" "3.8.13"
              (fun _ _ => false) None []) as (_ & _ & H & _).
  exact (proj1 (H (fun _ _ => eq_refl))).
Defined.

(** * Further properties of the code *)

(** ** Floats: the two branches agree *)

Lemma SFadd_opp_l G P : SFadd prec emax (SFopp G) P = SFsub prec emax P G.
Proof.
  destruct G as [[]|[]| |[] mg eg], P as [[]|[]| |[] mp ep]; try reflexivity;
    cbn [SFadd SFsub SFopp negb]; rewrite Z.min_comm; f_equal; cbn [cond_Zopp]; lia.
Qed.

Lemma SFopp_involutive G : SFopp (SFopp G) = G.
Proof. destruct G as [[]|[]| |[] m e]; reflexivity. Qed.

Lemma SFabs_negative G :
  SFltb G (S754_zero false) = true → SFabs G = SFopp G.
Proof. destruct G as [[]|[]| |[] m e]; try reflexivity; discriminate. Qed.

(** [abs(g) + p] and [p - g] are the same float when [g < 0]. *)
Lemma float_abs_add g p : (g <? 0)%float = true → (abs g + p = p - g)%float.
Proof.
  intros Hlt. apply Prim2SF_inj.
  rewrite add_spec, sub_spec, abs_spec. unfold SF64add, SF64sub.
  rewrite ltb_spec in Hlt. change (Prim2SF 0) with (S754_zero false) in Hlt.
  rewrite (SFabs_negative _ Hlt). apply SFadd_opp_l.
Qed.

Lemma float_add_sub_opp x p : (x + p = p - (- x))%float.
Proof.
  apply Prim2SF_inj. rewrite add_spec, sub_spec, opp_spec. unfold SF64add, SF64sub.
  by rewrite <- SFadd_opp_l, SFopp_involutive.
Qed.

(** Rounding treats a mantissa the same under either sign. *)
Lemma binary_round_aux_sign mx ex lx :
  match binary_round_aux prec emax true mx ex lx,
        binary_round_aux prec emax false mx ex lx with
  | S754_infinity _, S754_infinity _ => True
  | S754_infinity _, _ | _, S754_infinity _ => False
  | a, b => SF2Prim a = (- SF2Prim b)%float
  end.
Proof.
  unfold binary_round_aux.
  destruct (shr_fexp prec emax mx ex lx) as [mrs' e'].
  destruct (shr_fexp prec emax _ e' loc_Exact) as [mrs'' e''].
  destruct (shr_m mrs''); [reflexivity| |reflexivity].
  destruct (e'' <=? emax - prec); [reflexivity|exact I].
Qed.

(** [float(n)] for a negative [n] is the opposite of [float(abs(n))], and
    overflows when it does. *)
Lemma float_of_int_negative n :
  n < 0 →
  float_of_int n = (x ← float_of_int (Z.abs n); Ok (- x)%float).
Proof.
  destruct n as [|m|m]; try lia. intros _.
  change (Z.abs (Z.neg m)) with (Z.pos m).
  unfold float_of_int, binary_normalize, binary_round.
  destruct (shl_align _ _ _) as [mz ez].
  pose proof (binary_round_aux_sign (Zpos mz) ez loc_Exact) as H.
  destruct (binary_round_aux prec emax true _ _ _),
           (binary_round_aux prec emax false _ _ _);
    cbv zeta in H; cbn [mbind Exc_mbind Exc_bind]; try done; by rewrite H.
Qed.

(** Lines 115 and 118 compute the same value, on every pair of operands:
    when [g < 0], [abs(g) + p] is [p - g], rounding, conversion and
    exceptions included. *)
Lemma branches_agree g p :
  py_lt0 g = Ok true → (x ← py_abs g; py_add x p) = py_sub p g.
Proof.
  destruct g as [|n|f|s]; cbn [py_lt0 py_abs mbind Exc_mbind Exc_bind];
    try discriminate; intros [= Hlt].
  - destruct p as [|m|q|t]; cbn [py_add py_sub mbind Exc_mbind Exc_bind];
      try reflexivity.
    + do 2 f_equal. lia.
    + rewrite (float_of_int_negative n) by lia.
      destruct (float_of_int (Z.abs n)) as [x|]; cbn [mbind Exc_mbind Exc_bind];
        [|reflexivity].
      by rewrite float_add_sub_opp.
  - destruct p as [|m|q|t]; cbn [py_add py_sub mbind Exc_mbind Exc_bind];
      try reflexivity.
    + destruct (float_of_int m) as [x|]; cbn [mbind Exc_mbind Exc_bind];
        [|reflexivity].
      by rewrite float_abs_add.
    + by rewrite float_abs_add.
Qed.

(** ** The formula, both branches together *)

Lemma update_service_normal bus st g g1 p p1 :
  reading_of (_grid_power bus) = Some g →
  reading_of (_grid_l1_power bus) = Some g1 →
  reading_of (_pv_power bus) = Some p →
  reading_of (_pv_l1_power bus) = Some p1 →
  accepts bus →
  _dbusservice (snd (_update bus st))
  = commit (VInt (Z.max 0 (if g <? 0 then Z.abs g + p else p - g)))
           (VInt (Z.max 0 (if g <? 0 then Z.abs g1 + p1 else p1 - g1)))
           (_dbusservice st).
Proof. intros Hg Hg1 Hp Hp1 Hacc. by rewrite (update_normal _ _ _ _ _ _ Hg Hg1 Hp Hp1 Hacc). Qed.

Lemma total_branches_agree g p :
  Z.max 0 (if g <? 0 then Z.abs g + p else p - g) = Z.max 0 (p - g).
Proof. destruct (Z.ltb_spec g 0); lia. Qed.

(** X1: the two branches of lines 114-119 compute the same total.  For
    every reading, [int] or [float], of either sign, a tick that goes
    through publishes max(0, pv_total - grid_total) on /Ac/Power, in
    Python's arithmetic; with integer readings that is exact, and is 0
    exactly when pv_total <= grid_total. *)
Theorem total_is_pv_minus_grid bus st g g1 p p1
    (Hg : defaulted (_grid_power bus) = Some g)
    (Hg1 : defaulted (_grid_l1_power bus) = Some g1)
    (Hp : defaulted (_pv_power bus) = Some p)
    (Hp1 : defaulted (_pv_l1_power bus) = Some p1)
    (Hsound : sound bus) :
  (∃ d c,
     py_sub p g = Ok d ∧ py_max0 d = Ok c ∧
     published bus st "/Ac/Power" = Some c) ∧
  (∀ n m, g = VInt n → p = VInt m →
     published bus st "/Ac/Power" = Some (VInt (Z.max 0 (m - n))) ∧
     (published bus st "/Ac/Power" = Some (VInt 0) ↔ m ≤ n)).
Proof.
  destruct (sound_goes _ _ _ _ _ Hsound Hg Hg1 Hp Hp1) as (Hacc & ct & c1 & Hc).
  unfold published.
  rewrite (update_service_goes _ _ _ _ _ _ _ _ Hg Hg1 Hp Hp1 Hc Hacc).
  rewrite commit_lookup_total.
  apply consumption_Ok in Hc as (importing & t & l & Hlt & Hbranch & Ht & Hl).
  assert (py_sub p g = Ok t) as Hsub.
  { destruct importing; [|by destruct Hbranch].
    destruct Hbranch as (x & x1 & Hx & Hxp & _).
    rewrite <- (branches_agree _ _ Hlt), Hx. exact Hxp. }
  split.
  - by exists t, ct.
  - intros n m -> ->. cbn [py_sub] in Hsub. injection Hsub as <-.
    rewrite py_max0_max in Ht. injection Ht as <-.
    split; [done|]. split.
    + intros [= H]. lia.
    + intros H. do 2 f_equal. lia.
Qed.

Lemma total_is_pv_minus_grid_witness :
  published float_import_bus example_state "/Ac/Power"
  = Some (VFloat (400.25 - -2300.5)) ∧
  published import_bus example_state "/Ac/Power" = Some (VInt (Z.max 0 (400 - -2300))).
Proof.
  split.
  - destruct (total_is_pv_minus_grid float_import_bus example_state
                (VFloat (-2300.5)) (VFloat (-2300.5)) (VFloat 400.25) (VFloat 400.25)
                eq_refl eq_refl eq_refl eq_refl ltac:(steady_is_sound))
      as [(d & c & Hd & Hc & Hpub) _].
    injection Hd as <-. injection Hc as <-. exact Hpub.
  - exact (proj1 (proj2 (total_is_pv_minus_grid import_bus example_state
                (VInt (-2300)) (VInt 0) (VInt 400) (VInt 380)
                eq_refl eq_refl eq_refl eq_refl ltac:(steady_is_sound))
             (-2300) 400 eq_refl eq_refl)).
Defined.

(** X2: the phase-1 value follows the branch chosen by the sign of the
    TOTAL grid reading: max(0, |grid_l1| + pv_l1) when the total is
    negative, max(0, pv_l1 - grid_l1) otherwise, in Python's arithmetic.
    With integer readings it is therefore max(0, pv_l1 - grid_l1) unless
    the total imports while the phase reading is positive; then the phase
    reading is added, not subtracted. *)
Theorem l1_follows_total_branch bus st g g1 p p1
    (Hg : defaulted (_grid_power bus) = Some g)
    (Hg1 : defaulted (_grid_l1_power bus) = Some g1)
    (Hp : defaulted (_pv_power bus) = Some p)
    (Hp1 : defaulted (_pv_l1_power bus) = Some p1)
    (Hsound : sound bus) :
  (py_lt0 g = Ok true →
   ∃ a s c, py_abs g1 = Ok a ∧ py_add a p1 = Ok s ∧ py_max0 s = Ok c ∧
            published bus st "/Ac/L1/Power" = Some c) ∧
  (py_lt0 g = Ok false →
   ∃ d c, py_sub p1 g1 = Ok d ∧ py_max0 d = Ok c ∧
          published bus st "/Ac/L1/Power" = Some c) ∧
  (∀ n n1 m1, g = VInt n → g1 = VInt n1 → p1 = VInt m1 →
     (0 ≤ n ∨ n1 ≤ 0 →
      published bus st "/Ac/L1/Power" = Some (VInt (Z.max 0 (m1 - n1)))) ∧
     (n < 0 → 0 < n1 →
      published bus st "/Ac/L1/Power" = Some (VInt (Z.max 0 (m1 + n1))))).
Proof.
  destruct (sound_goes _ _ _ _ _ Hsound Hg Hg1 Hp Hp1) as (Hacc & ct & c1 & Hc).
  unfold published.
  rewrite (update_service_goes _ _ _ _ _ _ _ _ Hg Hg1 Hp Hp1 Hc Hacc).
  rewrite commit_lookup_l1.
  apply consumption_Ok in Hc as (importing & t & l & Hlt & Hbranch & Ht & Hl).
  split_and!.
  - intros Hi. rewrite Hi in Hlt. injection Hlt as <-.
    destruct Hbranch as (x & x1 & _ & _ & Hx1 & Hl1). by exists x1, l, c1.
  - intros Hi. rewrite Hi in Hlt. injection Hlt as <-.
    destruct Hbranch as [_ Hsub]. by exists l, c1.
  - intros n n1 m1 -> -> ->. cbn [py_lt0] in Hlt. injection Hlt as <-.
    destruct (Z.ltb_spec n 0).
    + destruct Hbranch as (x & x1 & _ & _ & Hx1 & Hl1).
      cbn [py_abs] in Hx1. injection Hx1 as <-. cbn [py_add] in Hl1.
      injection Hl1 as <-. rewrite py_max0_max in Hl. injection Hl as <-.
      split; intros; do 2 f_equal; lia.
    + destruct Hbranch as [_ Hsub]. cbn [py_sub] in Hsub. injection Hsub as <-.
      rewrite py_max0_max in Hl. injection Hl as <-.
      split; intros; do 2 f_equal; lia.
Qed.

Lemma l1_follows_total_branch_witness :
  published mixed_bus example_state "/Ac/L1/Power" = Some (VInt 500) ∧
  published export_bus example_state "/Ac/L1/Power" = Some (VInt 702) ∧
  published float_import_bus example_state "/Ac/L1/Power" = Some (VFloat 2700.75).
Proof.
  split_and!.
  - exact (proj2 (proj2 (proj2 (l1_follows_total_branch mixed_bus example_state
             (VInt (-500)) (VInt 200) (VInt 900) (VInt 300)
             eq_refl eq_refl eq_refl eq_refl ltac:(steady_is_sound)))
             (-500) 200 300 eq_refl eq_refl eq_refl) ltac:(lia) ltac:(lia)).
  - exact (proj1 (proj2 (proj2 (l1_follows_total_branch export_bus example_state
             (VInt 1715) (VInt 1715) (VInt 2417) (VInt 2417)
             eq_refl eq_refl eq_refl eq_refl ltac:(steady_is_sound)))
             1715 1715 2417 eq_refl eq_refl eq_refl) ltac:(lia)).
  - destruct (proj1 (l1_follows_total_branch float_import_bus example_state
             (VFloat (-2300.5)) (VFloat (-2300.5)) (VFloat 400.25) (VFloat 400.25)
             eq_refl eq_refl eq_refl eq_refl ltac:(steady_is_sound)) eq_refl)
      as (a & s & c & Ha & Hs & Hc & Hpub).
    injection Ha as <-. injection Hs as <-. injection Hc as <-. exact Hpub.
Defined.

(** X3: on a single-phase site, where the phase-1 readings equal the
    totals, /Ac/L1/Power and /Ac/Power carry the same value after a tick
    that goes through, whatever the kind of the numbers. *)
Theorem single_phase_l1_equals_total bus st g p
    (Hg : defaulted (_grid_power bus) = Some g)
    (Hg1 : defaulted (_grid_l1_power bus) = Some g)
    (Hp : defaulted (_pv_power bus) = Some p)
    (Hp1 : defaulted (_pv_l1_power bus) = Some p)
    (Hsound : sound bus) :
  published bus st "/Ac/L1/Power" = published bus st "/Ac/Power".
Proof.
  destruct (sound_goes _ _ _ _ _ Hsound Hg Hg1 Hp Hp1) as (Hacc & ct & c1 & Hc).
  unfold published.
  rewrite (update_service_goes _ _ _ _ _ _ _ _ Hg Hg1 Hp Hp1 Hc Hacc).
  rewrite commit_lookup_l1, commit_lookup_total. f_equal.
  apply consumption_Ok in Hc as (importing & t & l & Hlt & Hbranch & Ht & Hl).
  assert (t = l) as ->; [|congruence].
  destruct importing.
  - destruct Hbranch as (x & x1 & Hx & Hxp & Hx1 & Hx1p).
    rewrite Hx in Hx1. injection Hx1 as <-. congruence.
  - destruct Hbranch as [H1 H2]. congruence.
Qed.

Lemma single_phase_l1_equals_total_witness :
  published export_bus example_state "/Ac/L1/Power"
  = published export_bus example_state "/Ac/Power" ∧
  published float_export_bus example_state "/Ac/L1/Power"
  = published float_export_bus example_state "/Ac/Power".
Proof.
  split.
  - exact (single_phase_l1_equals_total export_bus example_state
             (VInt 1715) (VInt 2417)
             eq_refl eq_refl eq_refl eq_refl ltac:(steady_is_sound)).
  - exact (single_phase_l1_equals_total float_export_bus example_state
             (VFloat 1715.5) (VFloat 2417.75)
             eq_refl eq_refl eq_refl eq_refl ltac:(steady_is_sound)).
Defined.

(** X4: with integer readings the published total is monotone across the
    branch: with more PV production and no more export (a grid reading that
    is not larger), a tick never publishes a smaller total. *)
Theorem total_monotone bus bus' st st' g g1 p p1 g' g1' p' p1'
    (Hg : reading_of (_grid_power bus) = Some g)
    (Hg1 : reading_of (_grid_l1_power bus) = Some g1)
    (Hp : reading_of (_pv_power bus) = Some p)
    (Hp1 : reading_of (_pv_l1_power bus) = Some p1)
    (Hacc : accepts bus)
    (Hg' : reading_of (_grid_power bus') = Some g')
    (Hg1' : reading_of (_grid_l1_power bus') = Some g1')
    (Hp' : reading_of (_pv_power bus') = Some p')
    (Hp1' : reading_of (_pv_l1_power bus') = Some p1')
    (Hacc' : accepts bus')
    (Hpv : p ≤ p') (Hgrid : g' ≤ g) :
  ∃ c c', published bus st "/Ac/Power" = Some (VInt c) ∧
          published bus' st' "/Ac/Power" = Some (VInt c') ∧
          c ≤ c'.
Proof.
  unfold published.
  rewrite (update_service_normal _ _ _ _ _ _ Hg Hg1 Hp Hp1 Hacc).
  rewrite (update_service_normal _ _ _ _ _ _ Hg' Hg1' Hp' Hp1' Hacc').
  rewrite !commit_lookup_total, !total_branches_agree.
  eexists _, _. split_and!; [done..|]. lia.
Qed.

Lemma total_monotone_witness :
  ∃ c c', published import_bus example_state "/Ac/Power" = Some (VInt c) ∧
          published noon_bus example_state "/Ac/Power" = Some (VInt c') ∧
          c ≤ c'.
Proof.
  refine (total_monotone import_bus noon_bus example_state example_state
            (-2300) 0 400 380 (-2400) (-2400) 900 900
            eq_refl eq_refl eq_refl eq_refl (steady_accepts _ _ _ _)
            eq_refl eq_refl eq_refl eq_refl (steady_accepts _ _ _ _) _ _); lia.
Defined.

(** X5: when both phase-1 readings are unavailable, a tick that goes
    through publishes the [int] 0 on /Ac/L1/Power, whatever the totals are,
    [int] or [float], and still publishes a total. *)
Theorem missing_l1_publishes_zero bus st
    (Hg1 : _grid_l1_power bus = Ok VNone)
    (Hp1 : _pv_l1_power bus = Ok VNone)
    (Hsound : sound bus) :
  published bus st "/Ac/L1/Power" = Some (VInt 0) ∧
  ∃ c, published bus st "/Ac/Power" = Some c ∧ py_ge0 c = true.
Proof.
  destruct Hsound
    as (g & g1 & p & p1 & [ct c1] & Hg & Hg1' & Hp & Hp1' & Hc & Hacc).
  unfold published.
  rewrite (update_service_goes _ _ _ _ _ _ _ _ Hg Hg1' Hp Hp1' Hc Hacc).
  rewrite commit_lookup_l1, commit_lookup_total.
  rewrite Hg1 in Hg1'. rewrite Hp1 in Hp1'. cbn [defaulted default0] in Hg1', Hp1'.
  injection Hg1' as <-. injection Hp1' as <-.
  destruct (consumption_nonneg _ _ _ _ _ _ Hc) as [Hct _].
  apply consumption_Ok in Hc as (importing & t & l & Hlt & Hbranch & Ht & Hl).
  split; [|by exists ct]. f_equal.
  destruct importing.
  - destruct Hbranch as (x & x1 & _ & _ & [= <-] & [= <-]). by injection Hl as <-.
  - destruct Hbranch as [_ [= <-]]. by injection Hl as <-.
Qed.

Lemma missing_l1_publishes_zero_witness :
  published no_phase_bus example_state "/Ac/L1/Power" = Some (VInt 0) ∧
  ∃ c, published no_phase_bus example_state "/Ac/Power" = Some c ∧ py_ge0 c = true.
Proof.
  exact (missing_l1_publishes_zero no_phase_bus example_state
           eq_refl eq_refl ltac:(steady_is_sound)).
Defined.

(** ** Which fault is logged *)

(** X6: a reading that is a string, in any of the four positions, makes
    the tick fault and publish nothing, even when the store would have
    refused the assignments: the arithmetic comes before the block.  The
    exception logged is [TypeError], unless a [float] reading is present
    and an [int] too large for a [float] meets it first: then it is
    [OverflowError].  Without a [float] reading it is always [TypeError]. *)
Theorem string_reading_faults bus st v v1 w w1 s
    (Hv : _grid_power bus = Ok v) (Hv1 : _grid_l1_power bus = Ok v1)
    (Hw : _pv_power bus = Ok w) (Hw1 : _pv_l1_power bus = Ok w1)
    (Hs : VStr s ∈ [v; v1; w; w1]) :
  (∃ e, _update bus st = (true, logging (LogError e) st) ∧
        (e = TypeError ∨ e = OverflowError)) ∧
  (Forall (fun x => is_float x = false) [v; v1; w; w1] →
   _update bus st = (true, logging (LogError TypeError) st)) ∧
  ∀ path, published bus st path = _dbusservice st !! path.
Proof.
  destruct (compute_fault bus st v v1 w w1 Hv Hv1 Hw Hw1 (ex_intro _ s Hs))
    as (e & He & Hkind).
  split_and!.
  - exists e. split; [by apply update_Raise|]. destruct Hkind as [->|[-> _]]; auto.
  - intros Hnf. destruct Hkind as [->|[_ Hf]]; [by apply update_Raise|].
    rewrite Exists_exists in Hf. destruct Hf as (x & Hx & Hfl).
    rewrite Forall_forall in Hnf. rewrite (Hnf x Hx) in Hfl. discriminate.
  - intros path. unfold published. by rewrite (update_Raise _ _ _ He).
Qed.

Lemma string_reading_faults_witness :
  _update compute_faulting example_state
  = (true, logging (LogError TypeError) example_state) ∧
  ∃ e, _update overflow_bus example_state
       = (true, logging (LogError e) example_state) ∧
       (e = TypeError ∨ e = OverflowError).
Proof.
  split.
  - refine (proj1 (proj2 (string_reading_faults compute_faulting example_state
              (VStr "n/a") (VInt 0) (VInt 400) (VInt 400) "n/a"
              eq_refl eq_refl eq_refl eq_refl _)) _).
    + apply list_elem_of_In. simpl. tauto.
    + rewrite !Forall_cons, Forall_nil. tauto.
  - refine (proj1 (string_reading_faults overflow_bus example_state
              (VInt (- 2 ^ 1024)) (VStr "n/a") (VFloat 1) (VInt 0) "n/a"
              eq_refl eq_refl eq_refl eq_refl _)).
    apply list_elem_of_In. simpl. tauto.
Defined.

(** X7: the four reads come first, in the order grid total, grid phase 1,
    PV total, PV phase 1: the exception of the first read that raises is the
    one logged, whatever the earlier reads returned (a string included) and
    whatever the later ones would have done. *)
Theorem first_read_fault_is_logged bus st e
    (Hread :
       _grid_power bus = Raise e ∨
       (∃ v, _grid_power bus = Ok v ∧
          (_grid_l1_power bus = Raise e ∨
           ∃ v1, _grid_l1_power bus = Ok v1 ∧
             (_pv_power bus = Raise e ∨
              ∃ w, _pv_power bus = Ok w ∧ _pv_l1_power bus = Raise e)))) :
  _update bus st = (true, logging (LogError e) st).
Proof. by apply update_Raise, read_fault. Qed.

Lemma first_read_fault_is_logged_witness :
  _update string_then_raise example_state
  = (true, logging (LogError (DBusException "org.freedesktop.DBus.Error.ServiceUnknown"))
             example_state).
Proof.
  refine (first_read_fault_is_logged string_then_raise example_state _ _).
  right. eexists. split; [reflexivity|]. right. eexists. split; [reflexivity|].
  left. reflexivity.
Defined.

(** ** Runs of several ticks *)

Lemma mainloop_run_app ticks ticks' st :
  mainloop_run (ticks ++ ticks') st = mainloop_run ticks' (mainloop_run ticks st).
Proof.
  revert st. induction ticks as [|bus ticks IH]; intros st; [done|].
  cbn [app]. by rewrite !mainloop_run_cons, IH.
Qed.

Lemma unsound_keeps_service bus st :
  ¬ sound bus → _dbusservice (snd (_update bus st)) = _dbusservice st.
Proof.
  intros Hns. destruct (update_try_cases bus st)
    as [[e He]|(g & g1 & p & p1 & ct & c1 & Hs)].
  - by rewrite (update_Raise _ _ _ He).
  - destruct Hns. by exists g, g1, p, p1, (ct, c1).
Qed.

Lemma unsound_run_keeps_service ticks st :
  Forall (fun bus => ¬ sound bus) ticks →
  _dbusservice (mainloop_run ticks st) = _dbusservice st.
Proof.
  intros Hall. revert st. induction Hall as [|bus ticks Hns _ IH]; intros st; [done|].
  by rewrite mainloop_run_cons, IH, unsound_keeps_service.
Qed.

(** The outputs of a tick that goes through do not depend on the state it
    started from. *)
Lemma sound_outputs_stateless bus st st' path :
  sound bus → path ∈ output_paths →
  published bus st path = published bus st' path.
Proof.
  intros (g & g1 & p & p1 & [ct c1] & Hg & Hg1 & Hp & Hp1 & Hc & Hacc) Hin.
  unfold published.
  rewrite !(update_service_goes _ _ _ _ _ _ _ _ Hg Hg1 Hp Hp1 Hc Hacc).
  unfold output_paths in Hin. set_unfold in Hin.
  destruct Hin as [->|[->|[->|[->|[]]]]].
  - by rewrite !commit_lookup_total.
  - by rewrite !commit_lookup_l1.
  - by rewrite !commit_lookup_l2.
  - by rewrite !commit_lookup_l3.
Qed.

(** X8: readers see the consumption of the most recent tick that went
    through.  Whatever ticks came before it, and however many faulting
    ticks came after it, the four outputs are the ones that tick computed,
    from whatever state: the earlier values are overwritten and faulting
    ticks leave the last good values in place.  With integer readings they
    are max(0, pv - grid), the phase-1 value of the total's branch, 0
    and 0. *)
Theorem last_sound_tick_is_published before bus after st
    (Hsound : sound bus)
    (Hafter : Forall (fun b => ¬ sound b) after) :
  let m := _dbusservice (mainloop_run (before ++ bus :: after) st) in
  (∀ st' path, path ∈ output_paths → m !! path = published bus st' path) ∧
  (∀ g g1 p p1,
     reading_of (_grid_power bus) = Some g →
     reading_of (_grid_l1_power bus) = Some g1 →
     reading_of (_pv_power bus) = Some p →
     reading_of (_pv_l1_power bus) = Some p1 →
     m !! "/Ac/Power" = Some (VInt (Z.max 0 (p - g))) ∧
     m !! "/Ac/L1/Power"
       = Some (VInt (Z.max 0 (if g <? 0 then Z.abs g1 + p1 else p1 - g1))) ∧
     m !! "/Ac/L2/Power" = Some (VInt 0) ∧
     m !! "/Ac/L3/Power" = Some (VInt 0)).
Proof.
  intros m. subst m.
  rewrite mainloop_run_app, mainloop_run_cons, unsound_run_keeps_service by done.
  split.
  - intros st' path Hin. by apply sound_outputs_stateless.
  - intros g g1 p p1 Hg Hg1 Hp Hp1.
    assert (accepts bus) as Hacc
      by (by destruct Hsound as (? & ? & ? & ? & ? & _ & _ & _ & _ & _ & ?)).
    rewrite (update_service_normal _ _ _ _ _ _ Hg Hg1 Hp Hp1 Hacc).
    rewrite commit_lookup_total, commit_lookup_l1, commit_lookup_l2, commit_lookup_l3.
    by rewrite total_branches_agree.
Qed.

Lemma read_faulting_unsound : ¬ sound read_faulting.
Proof. intros (g & g1 & p & p1 & r & _ & _ & H & _). discriminate H. Qed.

Lemma compute_faulting_unsound : ¬ sound compute_faulting.
Proof.
  intros (g & g1 & p & p1 & r & [= <-] & [= <-] & [= <-] & [= <-] & H & _).
  discriminate H.
Qed.

Lemma publish_faulting_unsound : ¬ sound publish_faulting.
Proof.
  intros (g & g1 & p & p1 & r & _ & _ & _ & _ & _ & Hacc).
  specialize (Hacc "/Ac/L2/Power"). unfold output_paths in Hacc.
  rewrite list_elem_of_In in Hacc. simpl in Hacc.
  assert (Some (OtherException "ValueError") = None) as H by (apply Hacc; tauto).
  discriminate H.
Qed.

Lemma overflow_bus_unsound : ¬ sound overflow_bus.
Proof.
  intros (g & g1 & p & p1 & r & [= <-] & [= <-] & [= <-] & [= <-] & H & _).
  vm_compute in H. discriminate H.
Qed.

Lemma last_sound_tick_is_published_witness :
  _dbusservice (mainloop_run
     [import_bus; read_faulting; export_bus;
      read_faulting; compute_faulting; publish_faulting; overflow_bus] example_state)
    !! "/Ac/Power" = Some (VInt (Z.max 0 (2417 - 1715))) ∧
  _dbusservice (mainloop_run
     [import_bus; float_export_bus; overflow_bus] example_state)
    !! "/Ac/Power" = published float_export_bus example_state "/Ac/Power".
Proof.
  split.
  - refine (proj1 (proj2 (last_sound_tick_is_published [import_bus; read_faulting]
              export_bus
              [read_faulting; compute_faulting; publish_faulting; overflow_bus]
              example_state ltac:(steady_is_sound) _)
              1715 1715 2417 2417 eq_refl eq_refl eq_refl eq_refl)).
    repeat apply Forall_cons_2; [..|apply Forall_nil_2].
    + apply read_faulting_unsound.
    + apply compute_faulting_unsound.
    + apply publish_faulting_unsound.
    + apply overflow_bus_unsound.
  - refine (proj1 (last_sound_tick_is_published [import_bus] float_export_bus
              [overflow_bus] example_state ltac:(steady_is_sound) _)
              example_state "/Ac/Power" _).
    + repeat apply Forall_cons_2; [..|apply Forall_nil_2].
      apply overflow_bus_unsound.
    + apply list_elem_of_In. simpl. tauto.
Defined.

(** ** The log *)

Lemma update_log bus st :
  (∃ e, update_try bus st = (Raise e, st) ∧
        log (snd (_update bus st)) = (log st ++ [LogError e])%list) ∨
  (∃ g p c, defaulted (_grid_power bus) = Some g ∧
            defaulted (_pv_power bus) = Some p ∧
            published bus st "/Ac/Power" = Some c ∧
            log (snd (_update bus st)) = (log st ++ [LogDebug g p c])%list).
Proof.
  destruct (update_try_cases bus st)
    as [[e He]|(g & g1 & p & p1 & ct & c1 & Hg & Hg1 & Hp & Hp1 & Hc & Hacc)].
  - left. exists e. split; [done|]. by rewrite (update_Raise _ _ _ He).
  - right. exists g, p, ct.
    unfold published. rewrite (update_goes _ _ _ _ _ _ _ _ Hg Hg1 Hp Hp1 Hc Hacc).
    cbn [snd logging set_service _dbusservice log].
    by rewrite commit_lookup_total.
Qed.

(** X9: every tick appends exactly one record to the log and alters none
    of the earlier ones: an error record with the exception when the tick
    faults, otherwise a debug record that shows the two total readings
    after defaulting and the very total that was published, [int] or
    [float] as they are.  So a run of n ticks adds n records: the timer is
    never cancelled. *)
Theorem one_log_record_per_tick :
  (∀ bus st,
     (∃ e, log (snd (_update bus st)) = (log st ++ [LogError e])%list ∧
           ∀ path, published bus st path = _dbusservice st !! path) ∨
     (∃ g p c, log (snd (_update bus st)) = (log st ++ [LogDebug g p c])%list ∧
               defaulted (_grid_power bus) = Some g ∧
               defaulted (_pv_power bus) = Some p ∧
               published bus st "/Ac/Power" = Some c)) ∧
  (∀ ticks st,
     ∃ records, log (mainloop_run ticks st) = (log st ++ records)%list ∧
                length records = length ticks).
Proof.
  split.
  - intros bus st.
    destruct (update_log bus st) as [(e & He & Hlog)|(g & p & c & Hg & Hp & Hpub & Hlog)].
    + left. exists e. split; [done|]. intros path. unfold published.
      by rewrite (update_Raise _ _ _ He).
    + right. by exists g, p, c.
  - intros ticks. induction ticks as [|bus ticks IH]; intros st.
    + exists []. by rewrite app_nil_r.
    + rewrite mainloop_run_cons.
      destruct (IH (snd (_update bus st))) as (records & -> & Hlen).
      destruct (update_log bus st) as [(e & _ & ->)|(g & p & c & _ & _ & _ & ->)];
        eexists (_ :: records); rewrite <- app_assoc; cbn [app length];
        by rewrite Hlen.
Qed.

(** ** The set of paths *)

Lemma known_path_union (path : string) (X : gset string) :
  path ∈ X → {[path]} ∪ X = X.
Proof. intros H. apply subseteq_union_1_L. by apply singleton_subseteq_l. Qed.

Lemma commit_dom ct c1 (m : gmap string Value) :
  (∀ path, path ∈ output_paths → is_Some (m !! path)) →
  dom (commit ct c1 m) = dom m.
Proof.
  intros Hin. unfold commit. rewrite !dom_insert_L.
  assert (∀ path, path ∈ output_paths → path ∈ dom m) as Hd
    by (intros path Hp; by apply elem_of_dom, Hin).
  pose proof (Hd "/Ac/Power") as H0. pose proof (Hd "/Ac/L1/Power") as H1.
  pose proof (Hd "/Ac/L2/Power") as H2. pose proof (Hd "/Ac/L3/Power") as H3.
  unfold output_paths in H0, H1, H2, H3.
  rewrite list_elem_of_In in H0, H1, H2, H3. simpl in H0, H1, H2, H3.
  assert ("/Ac/Power" ∈ dom m) by (apply H0; tauto).
  assert ("/Ac/L1/Power" ∈ dom m) by (apply H1; tauto).
  assert ("/Ac/L2/Power" ∈ dom m) by (apply H2; tauto).
  assert ("/Ac/L3/Power" ∈ dom m) by (apply H3; tauto).
  rewrite (known_path_union "/Ac/Power" (dom m)) by done.
  rewrite (known_path_union "/Ac/L1/Power" (dom m)) by done.
  rewrite (known_path_union "/Ac/L2/Power" (dom m)) by done.
  by rewrite (known_path_union "/Ac/L3/Power" (dom m)).
Qed.

Lemma update_dom bus st :
  (∀ path, path ∈ output_paths → is_Some (_dbusservice st !! path)) →
  dom (_dbusservice (snd (_update bus st))) = dom (_dbusservice st).
Proof.
  intros Hin.
  destruct (update_service bus st) as [->|(ct & c1 & _ & _ & ->)]; [done|].
  by apply commit_dom.
Qed.

Lemma add_path_dom path v st :
  dom (_dbusservice (add_path path v st)) = {[path]} ∪ dom (_dbusservice st).
Proof. apply dom_insert_L. Qed.

Lemma logging_service r st : _dbusservice (logging r st) = _dbusservice st.
Proof. reflexivity. Qed.

Lemma timeout_add_service ms st : _dbusservice (timeout_add ms st) = _dbusservice st.
Proof. reflexivity. Qed.

Lemma register_service st : _dbusservice (register st) = _dbusservice st.
Proof. reflexivity. Qed.

Lemma init_dom (__file__ python_version grid_service pv_service : string)
    (update_interval_ms : Z) (log0 : list LogRecord) :
  dom (_dbusservice (__init__ __file__ python_version grid_service pv_service
                       update_interval_ms log0))
  = list_to_set registered_paths.
Proof.
  unfold __init__. cbv zeta.
  rewrite !logging_service, timeout_add_service, register_service, !add_path_dom.
  cbn [_dbusservice]. rewrite dom_empty_L.
  unfold registered_paths. cbn [list_to_set]. set_solver.
Qed.

(** X10: the service exposes exactly the sixteen paths that the
    constructor registers, and keeps exactly those through any run: a tick
    never adds a path and never removes one. *)
Theorem paths_fixed_at_registration
    (__file__ python_version grid_service pv_service : string)
    (update_interval_ms : Z) (log0 : list LogRecord) (ticks : list Bus) :
  dom (_dbusservice (mainloop_run ticks
         (__init__ __file__ python_version grid_service pv_service
            update_interval_ms log0)))
  = list_to_set registered_paths ∧
  length registered_paths = 16%nat ∧ NoDup registered_paths.
Proof.
  split; [|split; [done|]].
  - apply (mainloop_run_invariant
             (fun m => dom m = list_to_set registered_paths)); [|apply init_dom].
    intros bus st Hdom. rewrite update_dom; [done|].
    intros path Hp. apply elem_of_dom. rewrite Hdom.
    apply elem_of_list_to_set. unfold output_paths in Hp. unfold registered_paths.
    rewrite list_elem_of_In in *. simpl in *. tauto.
  - unfold registered_paths. apply NoDup_ListNoDup.
    repeat (constructor; [simpl; intuition discriminate|]). constructor.
Qed.

(** ** Startup, measured *)

Lemma slept_app tr tr' : slept (tr ++ tr') = slept tr + slept tr'.
Proof. induction tr as [|[s|n] tr IH]; cbn [app slept]; lia. Qed.

Lemma lookups_app tr tr' : lookups (tr ++ tr') = (lookups tr + lookups tr')%nat.
Proof. induction tr as [|[s|n] tr IH]; cbn [app lookups]; lia. Qed.

Lemma probes_measure k s :
  lookups (probes k s) = S k ∧ slept (probes k s) = 2 * Z.of_nat k.
Proof.
  unfold probes. induction k as [|k [IH1 IH2]]; [done|].
  cbn [retries app lookups slept]. split; lia.
Qed.

(** How [main] ends, by what the bus answered. *)
Lemma main_outcome (__file__ python_version : string)
    (get_object : list Event → string → bool) (construct_fault : option exn)
    (ticks : list Bus) :
  (never_found get_object [] grid_service ∧
   main __file__ python_version get_object construct_fault max_retries ticks
   = Some (Exited 1
       (mkWorld (probes (max_retries - 1) grid_service)
          (header ++ [LogWaiting grid_service;
                      LogNotFound grid_service max_retries])))) ∨
  (∃ k, found_at get_object [] grid_service k ∧
     never_found get_object (probes k grid_service) pv_service ∧
     main __file__ python_version get_object construct_fault max_retries ticks
     = Some (Exited 1
         (mkWorld (probes k grid_service ++ probes (max_retries - 1) pv_service)
            (header ++ [LogWaiting grid_service; LogFound grid_service;
                        LogWaiting pv_service;
                        LogNotFound pv_service max_retries])))) ∨
  (∃ k j e, found_at get_object [] grid_service k ∧
     found_at get_object (probes k grid_service) pv_service j ∧
     construct_fault = Some e ∧
     main __file__ python_version get_object construct_fault max_retries ticks
     = Some (Exited 1
         (mkWorld (probes k grid_service ++ probes j pv_service)
            (header ++ [LogWaiting grid_service; LogFound grid_service;
                        LogWaiting pv_service; LogFound pv_service;
                        LogCritical e])))) ∨
  (∃ k j, found_at get_object [] grid_service k ∧
     found_at get_object (probes k grid_service) pv_service j ∧
     construct_fault = None ∧
     main __file__ python_version get_object construct_fault max_retries ticks
     = Some (Running
         (mkWorld (probes k grid_service ++ probes j pv_service)
            (header ++ [LogWaiting grid_service; LogFound grid_service;
                        LogWaiting pv_service; LogFound pv_service]))
         (mainloop_run ticks
            (started __file__ python_version
               (header ++ [LogWaiting grid_service; LogFound grid_service;
                           LogWaiting pv_service; LogFound pv_service]))))).
Proof.
  unfold main.
  change (wlogging _ (wlogging _ (wlogging _ _))) with (mkWorld [] header).
  set (w := mkWorld [] header).
  destruct (found_or_never get_object [] grid_service) as [Hno|[k Hk]].
  - left. split; [done|].
    by rewrite (wait_for_services_grid_missing get_object w Hno).
  - destruct (found_or_never get_object (probes k grid_service) pv_service)
      as [Hno|[j Hj]].
    + right; left. exists k. split_and!; [done..|].
      by rewrite (wait_for_services_pv_missing get_object w k Hk Hno).
    + rewrite (wait_for_services_both get_object w k j Hk Hj).
      destruct construct_fault as [e|]; cbn [ConsumptionCalculator].
      * right; right; left. exists k, j, e. split_and!; [done..|].
        cbn [wlogging trace wlog]. by rewrite <- app_assoc.
      * right; right; right. exists k, j. by split_and!.
Qed.

(** X11: startup costs exactly one look-up per attempt and two seconds of
    sleep per failed attempt: when the grid service answers at its look-up
    number k and the PV service at its look-up number j (both counted from
    0), startup is over after k + j + 2 look-ups and 2 (k + j) seconds of
    sleep.  The main loop is then entered, unless the constructor raises:
    then the exception is logged as critical, last, and the process exits
    with status 1. *)
Theorem startup_delay (__file__ python_version : string)
    (get_object : list Event → string → bool) (construct_fault : option exn)
    (ticks : list Bus) k j
    (Hgrid : found_at get_object [] grid_service k)
    (Hpv : found_at get_object (probes k grid_service) pv_service j) :
  ∃ w,
    lookups (trace w) = (k + j + 2)%nat ∧
    slept (trace w) = 2 * Z.of_nat (k + j) ∧
    match construct_fault with
    | None =>
        ∃ calculator,
          main __file__ python_version get_object construct_fault max_retries ticks
          = Some (Running w calculator)
    | Some e =>
        main __file__ python_version get_object construct_fault max_retries ticks
        = Some (Exited 1 w) ∧
        last (wlog w) = Some (LogCritical e)
    end.
Proof.
  unfold main.
  change (wlogging _ (wlogging _ (wlogging _ _))) with (mkWorld [] header).
  rewrite (wait_for_services_both get_object (mkWorld [] header) k j Hgrid Hpv).
  assert (lookups (probes k grid_service ++ probes j pv_service) = (k + j + 2)%nat ∧
          slept (probes k grid_service ++ probes j pv_service) = 2 * Z.of_nat (k + j))
    as [Hl Hs].
  { rewrite lookups_app, slept_app.
    destruct (probes_measure k grid_service) as [-> ->].
    destruct (probes_measure j pv_service) as [-> ->]. split; lia. }
  destruct construct_fault as [e|]; cbn [ConsumptionCalculator].
  - eexists. split_and!; [| |reflexivity|]; cbn [wlogging trace wlog app];
      [done..|]. by rewrite last_snoc.
  - eexists. split_and!; [| |eexists; reflexivity]; by cbn [trace app].
Qed.

Lemma slow_start_grid : found_at slow_start [] grid_service 2.
Proof.
  split_and!; [unfold max_retries; lia|reflexivity|].
  intros [|[|j]] Hj; [reflexivity..|lia].
Qed.

Lemma slow_start_pv : found_at slow_start (probes 2 grid_service) pv_service 1.
Proof.
  split_and!; [unfold max_retries; lia|reflexivity|].
  intros [|j] Hj; [reflexivity|lia].
Qed.

Lemma startup_delay_witness :
  (∃ w,
     lookups (trace w) = 5%nat ∧
     slept (trace w) = 6 ∧
     ∃ calculator,
       main "/data/dbus-consumption-calculator.py" "3.8.13" slow_start None
         max_retries [export_bus]
       = Some (Running w calculator)) ∧
  (∃ w,
     lookups (trace w) = 5%nat ∧
     slept (trace w) = 6 ∧
     main "/data/dbus-consumption-calculator.py" "3.8.13" slow_start
       (Some (DBusException "org.freedesktop.DBus.Error.NameHasNoOwner"))
       max_retries [export_bus]
     = Some (Exited 1 w) ∧
     last (wlog w)
     = Some (LogCritical (DBusException "org.freedesktop.DBus.Error.NameHasNoOwner"))).
Proof.
  split.
  - exact (startup_delay "/data/dbus-consumption-calculator.py" "3.8.13" slow_start
             None [export_bus] 2 1 slow_start_grid slow_start_pv).
  - exact (startup_delay "/data/dbus-consumption-calculator.py" "3.8.13" slow_start
             (Some (DBusException "org.freedesktop.DBus.Error.NameHasNoOwner"))
             [export_bus] 2 1 slow_start_grid slow_start_pv).
Defined.

(** X12: startup is bounded whatever the bus does: [main] always reaches
    an outcome, after at most 60 look-ups and at most 116 seconds of sleep
    (30 look-ups and 58 seconds per service), and it never sleeps a negative
    time. *)
Theorem startup_bounded (__file__ python_version : string)
    (get_object : list Event → string → bool) (construct_fault : option exn)
    (ticks : list Bus) :
  ∃ outcome,
    main __file__ python_version get_object construct_fault max_retries ticks
    = Some outcome ∧
    (lookups (trace (outcome_world outcome)) ≤ 60)%nat ∧
    0 ≤ slept (trace (outcome_world outcome)) ≤ 116.
Proof.
  destruct (main_outcome __file__ python_version get_object construct_fault ticks)
    as [[_ ->]|[(k & Hk & _ & ->)|[(k & j & e & Hk & Hj & _ & ->)
                                  |(k & j & Hk & Hj & _ & ->)]]];
    eexists; (split; [reflexivity|]); cbn [outcome_world trace];
    rewrite ?lookups_app, ?slept_app.
  - destruct (probes_measure (max_retries - 1) grid_service) as [-> ->].
    unfold max_retries. lia.
  - destruct Hk as [Hk _].
    destruct (probes_measure k grid_service) as [-> ->].
    destruct (probes_measure (max_retries - 1) pv_service) as [-> ->].
    unfold max_retries in *. lia.
  - destruct Hk as [Hk _], Hj as [Hj _].
    destruct (probes_measure k grid_service) as [-> ->].
    destruct (probes_measure j pv_service) as [-> ->].
    unfold max_retries in *. lia.
  - destruct Hk as [Hk _], Hj as [Hj _].
    destruct (probes_measure k grid_service) as [-> ->].
    destruct (probes_measure j pv_service) as [-> ->].
    unfold max_retries in *. lia.
Qed.



(** ** The whole program *)

Lemma started_service __file__ python_version log0 :
  _dbusservice (started __file__ python_version log0)
  = _dbusservice (__init__ __file__ python_version grid_service pv_service 2000 log0).
Proof. unfold started. by rewrite !logging_service. Qed.

Lemma mainloop_run_keeps_registration ticks st :
  registered (mainloop_run ticks st) = registered st ∧
  timer (mainloop_run ticks st) = timer st.
Proof.
  revert st. induction ticks as [|bus ticks IH]; intros st; [done|].
  rewrite mainloop_run_cons.
  destruct (IH (snd (_update bus st))) as [-> ->].
  apply update_keeps_registration.
Qed.

(** X14: whenever [main] gets past startup and the constructor, then at
    any point of the run, whatever the bus answered at each tick: the
    service is registered, the timer period is 2000 ms, /Ac/Power and
    /Ac/L1/Power hold numbers, [int] or [float], that are not negative,
    phases 2 and 3 hold the [int] 0, and the device instance, role and
    serial read 100, acload and CALC001. *)
Theorem main_keeps_invariants (__file__ python_version : string)
    (get_object : list Event → string → bool) (construct_fault : option exn)
    (ticks : list Bus) w calculator
    (Hrun : main __file__ python_version get_object construct_fault max_retries ticks
            = Some (Running w calculator)) :
  registered calculator = true ∧
  timer calculator = Some 2000 ∧
  (∃ v, _dbusservice calculator !! "/Ac/Power" = Some v ∧ py_ge0 v = true) ∧
  (∃ v, _dbusservice calculator !! "/Ac/L1/Power" = Some v ∧ py_ge0 v = true) ∧
  _dbusservice calculator !! "/Ac/L2/Power" = Some (VInt 0) ∧
  _dbusservice calculator !! "/Ac/L3/Power" = Some (VInt 0) ∧
  _dbusservice calculator !! "/DeviceInstance" = Some (VInt 100) ∧
  _dbusservice calculator !! "/Role" = Some (VStr "acload") ∧
  _dbusservice calculator !! "/Serial" = Some (VStr "CALC001").
Proof.
  destruct (main_outcome __file__ python_version get_object construct_fault ticks)
    as [[_ H]|[(k & _ & _ & H)|[(k & j & e & _ & _ & _ & H)
                               |(k & j & _ & _ & _ & H)]]];
    rewrite H in Hrun; try discriminate Hrun.
  injection Hrun as _ <-.
  set (st0 := started _ _ _).
  destruct (mainloop_run_keeps_registration ticks st0) as [-> ->].
  assert (outputs_nonneg (_dbusservice (mainloop_run ticks st0))) as Hnn.
  { apply (mainloop_run_invariant outputs_nonneg); [apply outputs_nonneg_update|].
    unfold st0. rewrite started_service.
    eapply Forall_impl; [apply init_outputs|].
    intros path Hp. exists (VInt 0). split; [exact Hp|done]. }
  assert (unused_phases_zero (_dbusservice (mainloop_run ticks st0))) as [H2 H3].
  { apply (mainloop_run_invariant unused_phases_zero);
      [apply unused_phases_zero_update|]. by split. }
  unfold outputs_nonneg, output_paths in Hnn. rewrite !Forall_cons in Hnn.
  destruct Hnn as (Hp & Hl1 & _).
  split_and!; [done|done|exact Hp|exact Hl1|exact H2|exact H3|..];
    (rewrite mainloop_run_frame
       by (unfold output_paths; rewrite list_elem_of_In; simpl; intuition discriminate));
    unfold st0; rewrite started_service; reflexivity.
Qed.

Lemma main_keeps_invariants_witness :
  ∃ calculator,
    registered calculator = true ∧
    timer calculator = Some 2000 ∧
    _dbusservice calculator !! "/Ac/L3/Power" = Some (VInt 0) ∧
    _dbusservice calculator !! "/Serial" = Some (VStr "CALC001").
Proof.
  eexists.
  pose proof (main_keeps_invariants "/data/dbus-consumption-calculator.py" "3.8.13"
                slow_start None [float_export_bus; read_faulting] _ _ eq_refl)
    as (Hr & Ht & _ & _ & _ & H3 & _ & _ & Hs).
  exact (conj Hr (conj Ht (conj H3 Hs))).
Defined.

(** ** No reading at all *)

(** X15: when none of the four readings is available, the tick does not
    fault: it goes through, publishes 0 on all four outputs and logs the
    defaulted zeros. *)
Theorem no_reading_publishes_zero bus st
    (Hg : _grid_power bus = Ok VNone) (Hg1 : _grid_l1_power bus = Ok VNone)
    (Hp : _pv_power bus = Ok VNone) (Hp1 : _pv_l1_power bus = Ok VNone)
    (Hacc : accepts bus) :
  Forall (fun path => published bus st path = Some (VInt 0)) output_paths ∧
  log (snd (_update bus st))
  = (log st ++ [LogDebug (VInt 0) (VInt 0) (VInt 0)])%list.
Proof.
  assert (reading_of (_grid_power bus) = Some 0) as Hg' by by rewrite Hg.
  assert (reading_of (_grid_l1_power bus) = Some 0) as Hg1' by by rewrite Hg1.
  assert (reading_of (_pv_power bus) = Some 0) as Hp' by by rewrite Hp.
  assert (reading_of (_pv_l1_power bus) = Some 0) as Hp1' by by rewrite Hp1.
  unfold published. rewrite (update_normal _ _ _ _ _ _ Hg' Hg1' Hp' Hp1' Hacc).
  cbn [snd logging set_service _dbusservice log]. split; [|done].
  unfold output_paths. rewrite !Forall_cons, Forall_nil.
  by rewrite commit_lookup_total, commit_lookup_l1, commit_lookup_l2, commit_lookup_l3.
Qed.

Lemma no_reading_publishes_zero_witness :
  Forall (fun path => published silent_bus example_state path = Some (VInt 0))
    output_paths ∧
  log (snd (_update silent_bus example_state))
  = (log example_state ++ [LogDebug (VInt 0) (VInt 0) (VInt 0)])%list.
Proof.
  exact (no_reading_publishes_zero silent_bus example_state
           eq_refl eq_refl eq_refl eq_refl (steady_accepts _ _ _ _)).
Defined.
